(** * FastAPI tutorial scripts: a shallow embedding

    The repository holds two scripts, [api_tutorial.py] (handlers over an
    SQLite file) and [test.py] (the same routes as stubs).  This file
    embeds both:

    - [Sqlite]: the part of the store the handlers rely on: tables with an
      [INTEGER PRIMARY KEY AUTOINCREMENT] column, the [UNIQUE] columns of
      [users], the [LIKE] operator, and connections whose changes reach the
      file on [commit] only;
    - [Router]: route registration and lookup as the framework does it;
    - [ApiTutorial] and [TestPy]: one definition per Python function, under
      the function's name.

    Modelling conventions.  Text is [string], one [ascii] per character.
    A [REAL] is the rational it denotes ([Q]); NaN and the infinities are
    outside the model.  Row ids are [Z].  Failures of the environment (disk
    full, locked file, exhausted row ids) are outside the model.  Two
    refusals of the store are in the model, each an exception that no
    handler catches: an integer outside the signed 64-bit range cannot be
    bound to a placeholder, and a [LIKE] pattern of more than 50000 bytes
    is not evaluated. *)

From Stdlib Require Import ZArith QArith List String Ascii Bool Lia.
From Stdlib Require Import DecimalString.
Import ListNotations.

Open Scope string_scope.
Open Scope Z_scope.

Set Implicit Arguments.

(** ** The store *)

Module Sqlite.

(** *** Errors *)

Inductive error : Type :=
| IntegrityError
| ProgrammingError
| OverflowError
| OperationalError.

Inductive outcome (A : Type) : Type :=
| Done (a : A)
| Raised (e : error).
Arguments Raised {A} e.

(** *** Integers

    A Python [int] is bound as a signed 64-bit integer; a larger or
    smaller one raises [OverflowError]. *)

Definition min_int : Z := - 2 ^ 63.
Definition max_int : Z := 2 ^ 63 - 1.

Definition storableb (z : Z) : bool := (min_int <=? z) && (z <=? max_int).

Definition storable (z : Z) : Prop := storableb z = true.

Definition bind_int (z : Z) : outcome Z :=
  if storableb z then Done z else Raised OverflowError.

(** *** The LIKE operator

    [%] matches any run of characters, [_] any one character, every other
    character matches itself, ASCII letters regardless of case.  The
    queries of the scripts have no [ESCAPE] clause. *)

Definition to_lower (c : ascii) : ascii :=
  let n := nat_of_ascii c in
  if ((65 <=? n) && (n <=? 90))%nat then ascii_of_nat (n + 32) else c.

Definition same_nocase (p c : ascii) : bool :=
  Ascii.eqb (to_lower p) (to_lower c).

Definition is_percent (c : ascii) : bool := Ascii.eqb c "%".
Definition is_underscore (c : ascii) : bool := Ascii.eqb c "_".

Fixpoint like_any (rest : string -> bool) (s : string) : bool :=
  rest s ||
  match s with
  | EmptyString => false
  | String _ s' => like_any rest s'
  end.

Fixpoint like (pattern s : string) : bool :=
  match pattern with
  | EmptyString =>
      match s with EmptyString => true | String _ _ => false end
  | String p pattern' =>
      if is_percent p then like_any (like pattern') s
      else
        match s with
        | EmptyString => false
        | String c s' =>
            (is_underscore p || same_nocase p c) && like pattern' s'
        end
  end.

(** The [LIKE] function of the store.  A pattern of more than
    [LIKE_PATTERN_LENGTH] bytes is refused with "LIKE or GLOB pattern too
    complex" (50000 is the store's default).  Pattern and text are read
    as C strings: up to their first NUL character. *)

Definition LIKE_PATTERN_LENGTH : Z := 50000.

(** The length in bytes of the UTF-8 form: one byte for a character
    below 128, two for the others of [ascii]. *)
Fixpoint utf8_length (s : string) : Z :=
  match s with
  | EmptyString => 0
  | String c s' =>
      (if (N_of_ascii c <? 128)%N then 1 else 2) + utf8_length s'
  end.

Fixpoint c_string (s : string) : string :=
  match s with
  | EmptyString => EmptyString
  | String c s' =>
      if Ascii.eqb c zero then EmptyString else String c (c_string s')
  end.

Definition like_function (pattern s : string) : outcome bool :=
  if LIKE_PATTERN_LENGTH <? utf8_length pattern
  then Raised OperationalError
  else Done (like (c_string pattern) (c_string s)).

(** *** Tables

    A table keeps its rows in scan order.  [seq] is the table's entry in
    [sqlite_sequence]: the largest row id ever handed out by
    [AUTOINCREMENT] (0 when there is none). *)

Record table (R : Type) : Type := { rows : list R; seq : Z }.

Definition empty_table (R : Type) : table R := {| rows := []; seq := 0 |}.

Record item_row : Type :=
  { ir_id : Z; ir_name : string; ir_price : Q; ir_is_offer : option Z }.

Record user_row : Type :=
  { ur_id : Z; ur_username : string; ur_email : string;
    ur_full_name : option string }.

(** The file once both tables exist, and the file as [init_db] may find
    it, where a table may not have been created yet. *)
Record db : Type := { items : table item_row; users : table user_row }.

Record storage : Type :=
  { st_items : option (table item_row);
    st_users : option (table user_row) }.


(** The row id of an [AUTOINCREMENT] insert: one more than the largest
    id in the table (1 for an empty table), and more than [seq]. *)
Definition new_rowid (ids : list Z) (seq : Z) : Z :=
  Z.max
    (match ids with
     | [] => 1
     | i :: l => fold_left Z.max l i + 1
     end)
    (seq + 1).

(** *** Connections

    Statements work on [pending]; [commit] writes it to the file;
    [close] gives the file back, without what was not committed. *)

Record connection : Type := { on_disk : db; pending : db }.

Definition connect (file : db) : connection :=
  {| on_disk := file; pending := file |}.

Definition commit (conn : connection) : connection :=
  {| on_disk := pending conn; pending := pending conn |}.

Definition close (conn : connection) : db := on_disk conn.

Definition with_items (conn : connection) (t : table item_row)
  : connection :=
  {| on_disk := on_disk conn;
     pending := {| items := t; users := users (pending conn) |} |}.

Definition with_users (conn : connection) (t : table user_row)
  : connection :=
  {| on_disk := on_disk conn;
     pending := {| items := items (pending conn); users := t |} |}.

(** *** Bound values *)

Inductive value : Type :=
| Null
| Integer (z : Z)
| Real (q : Q)
| Text (s : string).

(** A Python [bool] is bound as the integer 1 or 0, [None] as NULL. *)
Definition bind_bool (b : option bool) : option Z :=
  option_map (fun b : bool => if b then 1 else 0) b.

(** *** Statements on [items] *)

(** [SELECT COUNT( * ) FROM items] *)
Definition count_items (conn : connection) : Z :=
  Z.of_nat (List.length (rows (items (pending conn)))).

(** [INSERT INTO items (name, price, is_offer) VALUES (?, ?, ?)];
    the result carries [lastrowid]. *)
Definition insert_item (name : string) (price : Q) (is_offer : option Z)
    (conn : connection) : connection * Z :=
  let t := items (pending conn) in
  let id := new_rowid (map ir_id (rows t)) (seq t) in
  let row :=
    {| ir_id := id; ir_name := name; ir_price := price;
       ir_is_offer := is_offer |} in
  (with_items conn {| rows := rows t ++ [row]; seq := id |}, id).

(** [executemany] of the same insert. *)
Fixpoint insert_items (l : list (string * Q * option Z))
    (conn : connection) : connection :=
  match l with
  | [] => conn
  | (name, price, is_offer) :: l' =>
      insert_items l' (fst (insert_item name price is_offer conn))
  end.

(** [UPDATE items SET name = ?, price = ?, is_offer = ? WHERE id = ?];
    the result carries [rowcount]. *)
Definition update_item_row (name : string) (price : Q)
    (is_offer : option Z) (id : Z) (r : item_row) : item_row :=
  if ir_id r =? id
  then {| ir_id := ir_id r; ir_name := name; ir_price := price;
          ir_is_offer := is_offer |}
  else r.

Definition update_items (name : string) (price : Q) (is_offer : option Z)
    (id : Z) (conn : connection) : outcome (connection * Z) :=
  match bind_int id with
  | Raised e => Raised e
  | Done id =>
      let t := items (pending conn) in
      let hit := filter (fun r => ir_id r =? id) (rows t) in
      Done
        (with_items conn
           {| rows := map (update_item_row name price is_offer id) (rows t);
              seq := seq t |},
         Z.of_nat (List.length hit))
  end.

(** [DELETE FROM items WHERE id = ?]; the result carries [rowcount]. *)
Definition delete_items (id : Z) (conn : connection)
  : outcome (connection * Z) :=
  match bind_int id with
  | Raised e => Raised e
  | Done id =>
      let t := items (pending conn) in
      let hit := filter (fun r => ir_id r =? id) (rows t) in
      Done
        (with_items conn
           {| rows := filter (fun r => negb (ir_id r =? id)) (rows t);
              seq := seq t |},
         Z.of_nat (List.length hit))
  end.

(** [SELECT id FROM items WHERE id = ?], all rows. *)
Definition select_item_id (id : Z) (conn : connection)
  : outcome (list Z) :=
  match bind_int id with
  | Raised e => Raised e
  | Done id =>
      Done
        (map ir_id
           (filter (fun r => ir_id r =? id) (rows (items (pending conn)))))
  end.

(** The conjuncts that [search_items] appends to
    [SELECT id, name, price, is_offer FROM items WHERE 1=1]; each has
    one placeholder. *)
Inductive condition : Type :=
| AND_name_LIKE
| AND_price_GE
| AND_price_LE.

(** The row test of a [WHERE 1=1 ...] clause with its bound values; an
    error when the values do not fit the placeholders.  The conjuncts are
    tested from left to right, and a row is given up at the first one that
    fails. *)
Fixpoint where_clause (conds : list condition) (params : list value)
  : outcome (item_row -> outcome bool) :=
  match conds, params with
  | [], [] => Done (fun _ => Done true)
  | AND_name_LIKE :: conds', Text pat :: params' =>
      match where_clause conds' params' with
      | Done f =>
          Done (fun r =>
                  match like_function pat (ir_name r) with
                  | Done true => f r
                  | Done false => Done false
                  | Raised e => Raised e
                  end)
      | Raised e => Raised e
      end
  | AND_price_GE :: conds', Real q :: params' =>
      match where_clause conds' params' with
      | Done f =>
          Done (fun r => if Qle_bool q (ir_price r) then f r else Done false)
      | Raised e => Raised e
      end
  | AND_price_LE :: conds', Real q :: params' =>
      match where_clause conds' params' with
      | Done f =>
          Done (fun r => if Qle_bool (ir_price r) q then f r else Done false)
      | Raised e => Raised e
      end
  | _, _ => Raised ProgrammingError
  end.

(** The rows that pass the test, in table order; the first error ends the
    scan. *)
Fixpoint scan (test : item_row -> outcome bool) (l : list item_row)
  : outcome (list item_row) :=
  match l with
  | [] => Done []
  | r :: l' =>
      match test r with
      | Raised e => Raised e
      | Done keep =>
          match scan test l' with
          | Done found => Done (if keep then r :: found else found)
          | Raised e => Raised e
          end
      end
  end.

Definition select_items (conds : list condition) (params : list value)
    (conn : connection) : outcome (list item_row) :=
  match where_clause conds params with
  | Done test => scan test (rows (items (pending conn)))
  | Raised e => Raised e
  end.

(** *** Statements on [users] *)

(** [SELECT COUNT( * ) FROM users] *)
Definition count_users (conn : connection) : Z :=
  Z.of_nat (List.length (rows (users (pending conn)))).

(** [INSERT INTO users (username, email, full_name) VALUES (?, ?, ?)]:
    refused when a row has the username or the email ([UNIQUE], compared
    character by character); the statement then changes nothing. *)
Definition insert_user (username email : string)
    (full_name : option string) (conn : connection)
  : outcome (connection * Z) :=
  let t := users (pending conn) in
  if existsb
       (fun r =>
          String.eqb (ur_username r) username
          || String.eqb (ur_email r) email)
       (rows t)
  then Raised IntegrityError
  else
    let id := new_rowid (map ur_id (rows t)) (seq t) in
    let row :=
      {| ur_id := id; ur_username := username; ur_email := email;
         ur_full_name := full_name |} in
    Done (with_users conn {| rows := rows t ++ [row]; seq := id |}, id).

(** [executemany] of the same insert; the first error ends it. *)
Fixpoint insert_users (l : list (string * string * option string))
    (conn : connection) : outcome connection :=
  match l with
  | [] => Done conn
  | (username, email, full_name) :: l' =>
      match insert_user username email full_name conn with
      | Done (conn', _) => insert_users l' conn'
      | Raised e => Raised e
      end
  end.

End Sqlite.

(** ** The router

    A route has a method, a path and the name of its handler.  A path is
    cut at every [/]; a piece [{name}] of a route path stands for any one
    non-empty piece of the request path.  The first route that matches
    path and method handles the request; when only paths match, the
    answer is 405; when nothing matches but the path with its final [/]
    added or removed does, the answer is a redirect; else 404. *)

Module Router.

Inductive method : Type := GET | POST | PUT | DELETE.

Definition method_eqb (m1 m2 : method) : bool :=
  match m1, m2 with
  | GET, GET | POST, POST | PUT, PUT | DELETE, DELETE => true
  | _, _ => false
  end.

Record route : Type :=
  { route_method : method; route_path : string; route_name : string }.

Definition is_slash (c : ascii) : bool := Ascii.eqb c "/".

Fixpoint split_slash (s : string) : list string :=
  match s with
  | EmptyString => [EmptyString]
  | String c s' =>
      if is_slash c then EmptyString :: split_slash s'
      else
        match split_slash s' with
        | piece :: l => String c piece :: l
        | [] => [String c EmptyString]
        end
  end.

Inductive piece : Type :=
| Lit (s : string)
| Param (name : string).

(** [drop_brace "item_id}" = Some "item_id"] *)
Fixpoint drop_brace (s : string) : option string :=
  match s with
  | EmptyString => None
  | String c s' =>
      match s' with
      | EmptyString => if Ascii.eqb c "}" then Some EmptyString else None
      | String _ _ => option_map (String c) (drop_brace s')
      end
  end.

Definition parse_piece (s : string) : piece :=
  match s with
  | String c s' =>
      if Ascii.eqb c "{"
      then match drop_brace s' with
           | Some name => Param name
           | None => Lit s
           end
      else Lit s
  | EmptyString => Lit s
  end.

Definition compile_path (path : string) : list piece :=
  map parse_piece (split_slash path).

Fixpoint match_pieces (pat : list piece) (path : list string)
  : option (list (string * string)) :=
  match pat, path with
  | [], [] => Some []
  | Lit s :: pat', x :: path' =>
      if String.eqb s x then match_pieces pat' path' else None
  | Param name :: pat', x :: path' =>
      if String.eqb x "" then None
      else option_map (cons (name, x)) (match_pieces pat' path')
  | _, _ => None
  end.

Definition match_path (r : route) (path : string)
  : option (list (string * string)) :=
  match_pieces (compile_path (route_path r)) (split_slash path).

Inductive resolution : Type :=
| Endpoint (name : string) (path_params : list (string * string))
| Method_Not_Allowed
| Redirect (path : string)
| Not_Found.

(** The first route matching path and method. *)
Fixpoint first_full (routes : list route) (m : method) (path : string)
  : option resolution :=
  match routes with
  | [] => None
  | r :: routes' =>
      match match_path r path with
      | Some params =>
          if method_eqb (route_method r) m
          then Some (Endpoint (route_name r) params)
          else first_full routes' m path
      | None => first_full routes' m path
      end
  end.

Definition path_known (routes : list route) (path : string) : bool :=
  existsb
    (fun r => match match_path r path with Some _ => true | None => false end)
    routes.

Fixpoint rstrip_slash (s : string) : string :=
  match s with
  | EmptyString => EmptyString
  | String c s' =>
      let t := rstrip_slash s' in
      if is_slash c && String.eqb t "" then EmptyString else String c t
  end.

Definition toggle_slash (path : string) : string :=
  if String.eqb (rstrip_slash path) path
  then path ++ "/"
  else rstrip_slash path.

Definition resolve (routes : list route) (m : method) (path : string)
  : resolution :=
  match first_full routes m path with
  | Some r => r
  | None =>
      if path_known routes path then Method_Not_Allowed
      else if negb (String.eqb path "/")
              && path_known routes (toggle_slash path)
      then Redirect (toggle_slash path)
      else Not_Found
  end.

End Router.

(** ** What a handler gives back

    The returned mapping, an [HTTPException] raised by the handler, or an
    error of the store that the handler does not catch (the framework
    answers it with status 500; what the connection had not committed is
    lost). *)

Inductive result (A : Type) : Type :=
| Ok (body : A)
| HTTPException (status_code : Z) (detail : string)
| Uncaught (e : Sqlite.error).
Arguments HTTPException {A} status_code detail.
Arguments Uncaught {A} e.

(** Python's [str] of an [int], as in [f"Item {item_id} deleted"]. *)
Definition str (z : Z) : string := NilZero.string_of_int (Z.to_int z).

(** Python's truth value of an [Optional[str]]. *)
Definition truthy (s : option string) : bool :=
  match s with
  | Some s => negb (String.eqb s "")
  | None => false
  end.

(** ** api_tutorial.py *)

Module ApiTutorial.

Module Item.
Record t : Type :=
  { id : option Z; name : string; price : Q; is_offer : option bool }.
End Item.

Module User.
Record t : Type :=
  { id : option Z; username : string; email : string;
    full_name : option string }.
End User.

Definition dummy_items : list (string * Q * bool) :=
  [ ("Laptop", 999.99%Q, true);
    ("Mouse", 25.50%Q, false);
    ("Keyboard", 75.00%Q, true);
    ("Monitor", 299.99%Q, false);
    ("Headphones", 149.99%Q, true) ].

Definition dummy_users : list (string * string * string) :=
  [ ("john_doe", "john@example.com", "John Doe");
    ("jane_smith", "jane@example.com", "Jane Smith");
    ("alice_wonder", "alice@example.com", "Alice Wonderland") ].

(** The two [CREATE TABLE IF NOT EXISTS] statements. *)
Definition create_tables (file : Sqlite.storage) : Sqlite.db :=
  {| Sqlite.items :=
       match Sqlite.st_items file with
       | Some t => t
       | None => Sqlite.empty_table Sqlite.item_row
       end;
     Sqlite.users :=
       match Sqlite.st_users file with
       | Some t => t
       | None => Sqlite.empty_table Sqlite.user_row
       end |}.

Definition init_db (file : Sqlite.storage) : Sqlite.outcome Sqlite.db :=
  let conn := Sqlite.connect (create_tables file) in
  let conn :=
    if Sqlite.count_items conn =? 0
    then
      Sqlite.insert_items
        (map (fun '(name, price, is_offer) =>
                (name, price, Sqlite.bind_bool (Some is_offer)))
             dummy_items)
        conn
    else conn in
  let seeded :=
    if Sqlite.count_users conn =? 0
    then
      Sqlite.insert_users
        (map (fun '(username, email, full_name) =>
                (username, email, Some full_name))
             dummy_users)
        conn
    else Sqlite.Done conn in
  match seeded with
  | Sqlite.Done conn =>
      let conn := Sqlite.commit conn in
      Sqlite.Done (Sqlite.close conn)
  | Sqlite.Raised e => Sqlite.Raised e
  end.

(** [Item(id=row[0], name=row[1], price=row[2],
         is_offer=bool(row[3]) if row[3] is not None else None)] *)
Definition row_to_Item (row : Sqlite.item_row) : Item.t :=
  {| Item.id := Some (Sqlite.ir_id row);
     Item.name := Sqlite.ir_name row;
     Item.price := Sqlite.ir_price row;
     Item.is_offer :=
       option_map (fun z => negb (z =? 0)) (Sqlite.ir_is_offer row) |}.

Definition read_root : result string :=
  Ok "Welcome to FastAPI Basics Tutorial!".

Module ListItems.
Record body : Type := { items : list Item.t; count : Z }.
End ListItems.

Definition list_items (file : Sqlite.db)
  : Sqlite.db * result ListItems.body :=
  let conn := Sqlite.connect file in
  match Sqlite.select_items [] [] conn with
  | Sqlite.Done rows =>
      let file := Sqlite.close conn in
      let items := map row_to_Item rows in
      (file,
       Ok {| ListItems.items := items;
             ListItems.count := Z.of_nat (List.length items) |})
  | Sqlite.Raised e => (Sqlite.close conn, Uncaught e)
  end.

(** The second definition under the same name and route; what follows
    its [return] is never run. *)
Definition list_items_again (file : Sqlite.db)
  : Sqlite.db * result ListItems.body :=
  let conn := Sqlite.connect file in
  match Sqlite.select_items [] [] conn with
  | Sqlite.Done rows =>
      let file := Sqlite.close conn in
      let items := map row_to_Item rows in
      (file,
       Ok {| ListItems.items := items;
             ListItems.count := Z.of_nat (List.length items) |})
  | Sqlite.Raised e => (Sqlite.close conn, Uncaught e)
  end.

Module CreateItem.
Record body : Type := { item : Item.t; message : string }.
End CreateItem.

Definition create_item (item : Item.t) (file : Sqlite.db)
  : Sqlite.db * result CreateItem.body :=
  let conn := Sqlite.connect file in
  let '(conn, item_id) :=
    Sqlite.insert_item (Item.name item) (Item.price item)
      (Sqlite.bind_bool (Item.is_offer item)) conn in
  let conn := Sqlite.commit conn in
  let file := Sqlite.close conn in
  (file,
   Ok {| CreateItem.item :=
           {| Item.id := Some item_id;
              Item.name := Item.name item;
              Item.price := Item.price item;
              Item.is_offer := Item.is_offer item |};
         CreateItem.message := "Item created successfully" |}).

Module UpdateItem.
Record body : Type := { item_id : Z; item : Item.t; message : string }.
End UpdateItem.

Definition update_item (item_id : Z) (item : Item.t) (file : Sqlite.db)
  : Sqlite.db * result UpdateItem.body :=
  let conn := Sqlite.connect file in
  match
    Sqlite.update_items (Item.name item) (Item.price item)
      (Sqlite.bind_bool (Item.is_offer item)) item_id conn
  with
  | Sqlite.Done (conn, rowcount) =>
      if rowcount =? 0
      then
        let file := Sqlite.close conn in
        (file, HTTPException 404 "Item not found")
      else
        let conn := Sqlite.commit conn in
        let file := Sqlite.close conn in
        (file,
         Ok {| UpdateItem.item_id := item_id;
               UpdateItem.item := item;
               UpdateItem.message := "Item updated" |})
  | Sqlite.Raised e => (Sqlite.close conn, Uncaught e)
  end.

Module DeleteItem.
Record body : Type := { message : string }.
End DeleteItem.

Definition delete_item (item_id : Z) (file : Sqlite.db)
  : Sqlite.db * result DeleteItem.body :=
  let conn := Sqlite.connect file in
  match Sqlite.delete_items item_id conn with
  | Sqlite.Done (conn, rowcount) =>
      if rowcount =? 0
      then
        let file := Sqlite.close conn in
        (file, HTTPException 404 "Item not found")
      else
        let conn := Sqlite.commit conn in
        let file := Sqlite.close conn in
        (file,
         Ok {| DeleteItem.message :=
                 "Item " ++ str item_id ++ " deleted" |})
  | Sqlite.Raised e => (Sqlite.close conn, Uncaught e)
  end.

Module Search.
Record filters : Type :=
  { name : option string; price_min : option Q; price_max : option Q }.
Record body : Type :=
  { items : list Item.t; filters_ : filters; count : Z }.
End Search.

Definition search_items (name : option string)
    (price_min price_max : option Q) (file : Sqlite.db)
  : Sqlite.db * result Search.body :=
  let conn := Sqlite.connect file in
  let query : list Sqlite.condition := [] in
  let params : list Sqlite.value := [] in
  let '(query, params) :=
    match name with
    | Some n =>
        if truthy name
        then ((query ++ [Sqlite.AND_name_LIKE])%list,
              (params ++ [Sqlite.Text ("%" ++ n ++ "%")])%list)
        else (query, params)
    | None => (query, params)
    end in
  let '(query, params) :=
    match price_min with
    | Some p =>
        ((query ++ [Sqlite.AND_price_GE])%list,
         (params ++ [Sqlite.Real p])%list)
    | None => (query, params)
    end in
  let '(query, params) :=
    match price_max with
    | Some p =>
        ((query ++ [Sqlite.AND_price_LE])%list,
         (params ++ [Sqlite.Real p])%list)
    | None => (query, params)
    end in
  match Sqlite.select_items query params conn with
  | Sqlite.Done rows =>
      let file := Sqlite.close conn in
      let items := map row_to_Item rows in
      (file,
       Ok {| Search.items := items;
             Search.filters_ :=
               {| Search.name := name;
                  Search.price_min := price_min;
                  Search.price_max := price_max |};
             Search.count := Z.of_nat (List.length items) |})
  | Sqlite.Raised e => (Sqlite.close conn, Uncaught e)
  end.

Module CreateUser.
Record body : Type := { user : User.t; message : string }.
End CreateUser.

Definition create_user (user : User.t) (file : Sqlite.db)
  : Sqlite.db * result CreateUser.body :=
  let conn := Sqlite.connect file in
  match
    Sqlite.insert_user (User.username user) (User.email user)
      (User.full_name user) conn
  with
  | Sqlite.Done (conn, user_id) =>
      let conn := Sqlite.commit conn in
      let file := Sqlite.close conn in
      (file,
       Ok {| CreateUser.user :=
               {| User.id := Some user_id;
                  User.username := User.username user;
                  User.email := User.email user;
                  User.full_name := User.full_name user |};
             CreateUser.message := "User created" |})
  | Sqlite.Raised Sqlite.IntegrityError =>
      let file := Sqlite.close conn in
      (file, HTTPException 400 "Username or email already exists")
  | Sqlite.Raised e => (Sqlite.close conn, Uncaught e)
  end.

Definition async_example : result string :=
  Ok "This is an async response".

Module Status.
Record body : Type := { item_id : Z; status : string }.
End Status.

Definition read_item_with_status (item_id : Z) (file : Sqlite.db)
  : Sqlite.db * result Status.body :=
  let conn := Sqlite.connect file in
  match Sqlite.select_item_id item_id conn with
  | Sqlite.Done rows =>
      let exists_ :=
        match hd_error rows with
        | Some _ => true
        | None => false
        end in
      let file := Sqlite.close conn in
      if negb exists_
      then (file, HTTPException 404 "Item not found")
      else
        (file,
         Ok {| Status.item_id := item_id; Status.status := "found" |})
  | Sqlite.Raised e => (Sqlite.close conn, Uncaught e)
  end.

(** The routes in the order of their decorators (the framework's own
    documentation routes are left out). *)
Definition routes : list Router.route :=
  [ {| Router.route_method := Router.GET; Router.route_path := "/";
       Router.route_name := "read_root" |};
    {| Router.route_method := Router.GET; Router.route_path := "/items/";
       Router.route_name := "list_items" |};
    {| Router.route_method := Router.GET; Router.route_path := "/items/";
       Router.route_name := "list_items" |};
    {| Router.route_method := Router.POST; Router.route_path := "/items/";
       Router.route_name := "create_item" |};
    {| Router.route_method := Router.PUT;
       Router.route_path := "/items/{item_id}";
       Router.route_name := "update_item" |};
    {| Router.route_method := Router.DELETE;
       Router.route_path := "/items/{item_id}";
       Router.route_name := "delete_item" |};
    {| Router.route_method := Router.GET; Router.route_path := "/search/";
       Router.route_name := "search_items" |};
    {| Router.route_method := Router.POST; Router.route_path := "/users/";
       Router.route_name := "create_user" |};
    {| Router.route_method := Router.GET;
       Router.route_path := "/async-example/";
       Router.route_name := "async_example" |};
    {| Router.route_method := Router.GET;
       Router.route_path := "/items/{item_id}/status";
       Router.route_name := "read_item_with_status" |} ].

End ApiTutorial.

(** ** test.py

    The same routes with no store behind them. *)

Module TestPy.

Module Item.
Record t : Type :=
  { name : string; price : Q; is_offer : option bool }.
End Item.

Module User.
Record t : Type :=
  { username : string; email : string; full_name : option string }.
End User.

Definition read_root : result string :=
  Ok "Welcome to FastAPI Basics Tutorial!".

Module ReadItem.
Record body : Type := { item_id : Z; q : option string }.
End ReadItem.

Definition read_item (item_id : Z) (q : option string)
  : result ReadItem.body :=
  Ok {| ReadItem.item_id := item_id; ReadItem.q := q |}.

Module CreateItem.
Record body : Type := { item : Item.t; message : string }.
End CreateItem.

Definition create_item (item : Item.t) : result CreateItem.body :=
  Ok {| CreateItem.item := item;
        CreateItem.message := "Item created successfully" |}.

Module UpdateItem.
Record body : Type := { item_id : Z; item : Item.t; message : string }.
End UpdateItem.

Definition update_item (item_id : Z) (item : Item.t)
  : result UpdateItem.body :=
  Ok {| UpdateItem.item_id := item_id;
        UpdateItem.item := item;
        UpdateItem.message := "Item updated" |}.

Module DeleteItem.
Record body : Type := { message : string }.
End DeleteItem.

Definition delete_item (item_id : Z) : result DeleteItem.body :=
  Ok {| DeleteItem.message := "Item " ++ str item_id ++ " deleted" |}.

Module Search.
Record filters : Type :=
  { name : option string; price_min : option Q; price_max : option Q }.
Record body : Type := { filters_ : filters; message : string }.
End Search.

Definition search_items (name : option string)
    (price_min price_max : option Q) : result Search.body :=
  Ok {| Search.filters_ :=
          {| Search.name := name;
             Search.price_min := price_min;
             Search.price_max := price_max |};
        Search.message := "Search results would be returned here" |}.

Module CreateUser.
Record body : Type := { user : User.t; message : string }.
End CreateUser.

Definition create_user (user : User.t) : result CreateUser.body :=
  Ok {| CreateUser.user := user; CreateUser.message := "User created" |}.

Definition async_example : result string :=
  Ok "This is an async response".

Module Status.
Record body : Type := { item_id : Z; status : string }.
End Status.

Definition read_item_with_status (item_id : Z) : result Status.body :=
  if item_id =? 999
  then HTTPException 404 "Item not found"
  else Ok {| Status.item_id := item_id; Status.status := "found" |}.

Definition routes : list Router.route :=
  [ {| Router.route_method := Router.GET; Router.route_path := "/";
       Router.route_name := "read_root" |};
    {| Router.route_method := Router.GET;
       Router.route_path := "/items/{item_id}";
       Router.route_name := "read_item" |};
    {| Router.route_method := Router.POST; Router.route_path := "/items/";
       Router.route_name := "create_item" |};
    {| Router.route_method := Router.PUT;
       Router.route_path := "/items/{item_id}";
       Router.route_name := "update_item" |};
    {| Router.route_method := Router.DELETE;
       Router.route_path := "/items/{item_id}";
       Router.route_name := "delete_item" |};
    {| Router.route_method := Router.GET; Router.route_path := "/search/";
       Router.route_name := "search_items" |};
    {| Router.route_method := Router.POST; Router.route_path := "/users/";
       Router.route_name := "create_user" |};
    {| Router.route_method := Router.GET;
       Router.route_path := "/async-example/";
       Router.route_name := "async_example" |};
    {| Router.route_method := Router.GET;
       Router.route_path := "/items/{item_id}/status";
       Router.route_name := "read_item_with_status" |} ].

End TestPy.

(** ** Words of the specification *)

Fixpoint lower (s : string) : string :=
  match s with
  | EmptyString => EmptyString
  | String c s' => String (Sqlite.to_lower c) (lower s')
  end.

(** [needle] occurs in [hay], character for character. *)
Definition substring (needle hay : string) : Prop :=
  exists pre post, hay = pre ++ needle ++ post.

(** [needle] occurs in [hay] when ASCII letters are compared without
    regard to case. *)
Definition substring_nocase (needle hay : string) : Prop :=
  exists pre mid post, hay = pre ++ mid ++ post /\ lower mid = lower needle.

Fixpoint wildcard_free (s : string) : bool :=
  match s with
  | EmptyString => true
  | String c s' =>
      negb (Sqlite.is_percent c) && negb (Sqlite.is_underscore c)
      && wildcard_free s'
  end.

Fixpoint starts_with (needle hay : string) : bool :=
  match needle, hay with
  | EmptyString, _ => true
  | String a needle', String b hay' =>
      Ascii.eqb a b && starts_with needle' hay'
  | String _ _, EmptyString => false
  end.

Fixpoint contains (needle hay : string) : bool :=
  starts_with needle hay ||
  match hay with
  | EmptyString => false
  | String _ hay' => contains needle hay'
  end.

(** The pattern [%name%] is within the length that the store's [LIKE]
    accepts (so [name] has at most 49998 bytes); an absent or empty name
    is not made into a pattern. *)
Definition name_fits (name : option string) : bool :=
  match name with
  | Some n =>
      if truthy name
      then Sqlite.utf8_length ("%" ++ n ++ "%")
           <=? Sqlite.LIKE_PATTERN_LENGTH
      else true
  | None => true
  end.

Fixpoint nul_free (s : string) : bool :=
  match s with
  | EmptyString => true
  | String c s' => negb (Ascii.eqb c zero) && nul_free s'
  end.

(** A row passes the filters that are present: the name filter by the
    store's [LIKE] on [%name%], the price bounds inclusively. *)
Definition passes (name : option string) (price_min price_max : option Q)
    (r : Sqlite.item_row) : Prop :=
  (forall n, name = Some n ->
             Sqlite.like_function ("%" ++ n ++ "%") (Sqlite.ir_name r)
             = Sqlite.Done true)
  /\ (forall p, price_min = Some p -> (p <= Sqlite.ir_price r)%Q)
  /\ (forall p, price_max = Some p -> (Sqlite.ir_price r <= p)%Q).

(** [search_items] answers with exactly the rows [hits], in this order. *)
Definition search_returns (name : option string)
    (price_min price_max : option Q) (file : Sqlite.db)
    (hits : list Sqlite.item_row) : Prop :=
  ApiTutorial.search_items name price_min price_max file
  = (file,
     Ok {| ApiTutorial.Search.items := map ApiTutorial.row_to_Item hits;
           ApiTutorial.Search.filters_ :=
             {| ApiTutorial.Search.name := name;
                ApiTutorial.Search.price_min := price_min;
                ApiTutorial.Search.price_max := price_max |};
           ApiTutorial.Search.count := Z.of_nat (List.length hits) |}).

Definition item_ids (file : Sqlite.db) : list Z :=
  map Sqlite.ir_id (Sqlite.rows (Sqlite.items file)).

Definition user_ids (file : Sqlite.db) : list Z :=
  map Sqlite.ur_id (Sqlite.rows (Sqlite.users file)).

(** The row test of the query that [search_items] puts together. *)
Definition keeps (name : option string) (price_min price_max : option Q)
    (r : Sqlite.item_row) : bool :=
  match name with
  | Some n =>
      if truthy name
      then Sqlite.like (Sqlite.c_string ("%" ++ n ++ "%"))
             (Sqlite.c_string (Sqlite.ir_name r))
      else true
  | None => true
  end
  && match price_min with
     | Some p => Qle_bool p (Sqlite.ir_price r)
     | None => true
     end
  && match price_max with
     | Some p => Qle_bool (Sqlite.ir_price r) p
     | None => true
     end.

(** A stored user has the username or the email of [user]. *)
Definition taken (user : ApiTutorial.User.t) (file : Sqlite.db) : Prop :=
  exists r,
    In r (Sqlite.rows (Sqlite.users file))
    /\ (Sqlite.ur_username r = ApiTutorial.User.username user
        \/ Sqlite.ur_email r = ApiTutorial.User.email user).

Definition conflict : result ApiTutorial.CreateUser.body :=
  HTTPException 400 "Username or email already exists".

(** The id that [AUTOINCREMENT] gives to the first row put into an empty
    table whose counter is [seq]. *)
Definition first_rowid (seq : Z) : Z := Z.max 1 (seq + 1).

(** The sample rows, numbered from [k] on. *)
Definition numbered_items (k : Z) : list Sqlite.item_row :=
  map (fun '(i, (name, price, is_offer)) =>
         {| Sqlite.ir_id := k + Z.of_nat i;
            Sqlite.ir_name := name;
            Sqlite.ir_price := price;
            Sqlite.ir_is_offer := Some (if is_offer : bool then 1 else 0) |})
      (combine (List.seq 0 5) ApiTutorial.dummy_items).

Definition numbered_users (k : Z) : list Sqlite.user_row :=
  map (fun '(i, (username, email, full_name)) =>
         {| Sqlite.ur_id := k + Z.of_nat i;
            Sqlite.ur_username := username;
            Sqlite.ur_email := email;
            Sqlite.ur_full_name := Some full_name |})
      (combine (List.seq 0 3) ApiTutorial.dummy_users).

(** A table after [init_db]: the sample rows when it had no rows. *)
Definition seeded_items (t : Sqlite.table Sqlite.item_row)
  : Sqlite.table Sqlite.item_row :=
  match Sqlite.rows t with
  | [] =>
      {| Sqlite.rows := numbered_items (first_rowid (Sqlite.seq t));
         Sqlite.seq := first_rowid (Sqlite.seq t) + 4 |}
  | _ :: _ => t
  end.

Definition seeded_users (t : Sqlite.table Sqlite.user_row)
  : Sqlite.table Sqlite.user_row :=
  match Sqlite.rows t with
  | [] =>
      {| Sqlite.rows := numbered_users (first_rowid (Sqlite.seq t));
         Sqlite.seq := first_rowid (Sqlite.seq t) + 2 |}
  | _ :: _ => t
  end.

(** The row test of [WHERE id = ?]. *)
Definition has_id (id : Z) (r : Sqlite.item_row) : bool :=
  Sqlite.ir_id r =? id.

(** ** Stores and requests to compute on *)

Definition sample_db : Sqlite.db :=
  {| Sqlite.items :=
       {| Sqlite.rows :=
            [ {| Sqlite.ir_id := 1; Sqlite.ir_name := "Laptop";
                 Sqlite.ir_price := 999.99%Q; Sqlite.ir_is_offer := Some 1 |};
              {| Sqlite.ir_id := 2; Sqlite.ir_name := "Mouse";
                 Sqlite.ir_price := 25.50%Q; Sqlite.ir_is_offer := Some 0 |};
              {| Sqlite.ir_id := 3; Sqlite.ir_name := "Keyboard";
                 Sqlite.ir_price := 75.00%Q; Sqlite.ir_is_offer := Some 1 |};
              {| Sqlite.ir_id := 4; Sqlite.ir_name := "Monitor";
                 Sqlite.ir_price := 299.99%Q; Sqlite.ir_is_offer := Some 0 |};
              {| Sqlite.ir_id := 5; Sqlite.ir_name := "Headphones";
                 Sqlite.ir_price := 149.99%Q; Sqlite.ir_is_offer := Some 1 |} ];
          Sqlite.seq := 5 |};
     Sqlite.users :=
       {| Sqlite.rows :=
            [ {| Sqlite.ur_id := 1; Sqlite.ur_username := "john_doe";
                 Sqlite.ur_email := "john@example.com";
                 Sqlite.ur_full_name := Some "John Doe" |};
              {| Sqlite.ur_id := 2; Sqlite.ur_username := "jane_smith";
                 Sqlite.ur_email := "jane@example.com";
                 Sqlite.ur_full_name := Some "Jane Smith" |};
              {| Sqlite.ur_id := 3; Sqlite.ur_username := "alice_wonder";
                 Sqlite.ur_email := "alice@example.com";
                 Sqlite.ur_full_name := Some "Alice Wonderland" |} ];
          Sqlite.seq := 3 |} |}.

Definition laptop_row : Sqlite.item_row :=
  {| Sqlite.ir_id := 1; Sqlite.ir_name := "Laptop";
     Sqlite.ir_price := 999.99%Q; Sqlite.ir_is_offer := Some 1 |}.

(** A name of 49999 characters, and a store with one item of that name. *)
Definition long_name : string := N.iter 49999 (String "a") "".

Definition long_row : Sqlite.item_row :=
  {| Sqlite.ir_id := 1; Sqlite.ir_name := long_name;
     Sqlite.ir_price := 1%Q; Sqlite.ir_is_offer := None |}.

Definition long_db : Sqlite.db :=
  {| Sqlite.items := {| Sqlite.rows := [long_row]; Sqlite.seq := 1 |};
     Sqlite.users := Sqlite.empty_table Sqlite.user_row |}.

(** A store with one item named [Pizza], and the name [a], NUL, [b]. *)
Definition pizza_row : Sqlite.item_row :=
  {| Sqlite.ir_id := 1; Sqlite.ir_name := "Pizza";
     Sqlite.ir_price := 8.50%Q; Sqlite.ir_is_offer := None |}.

Definition pizza_db : Sqlite.db :=
  {| Sqlite.items := {| Sqlite.rows := [pizza_row]; Sqlite.seq := 1 |};
     Sqlite.users := Sqlite.empty_table Sqlite.user_row |}.

Definition a_nul_b : string := String "a" (String zero "b").

Definition no_file : Sqlite.storage :=
  {| Sqlite.st_items := None; Sqlite.st_users := None |}.

Definition a_trackball : ApiTutorial.Item.t :=
  {| ApiTutorial.Item.id := None; ApiTutorial.Item.name := "Trackball";
     ApiTutorial.Item.price := 45.00%Q;
     ApiTutorial.Item.is_offer := Some true |}.

Definition john_again : ApiTutorial.User.t :=
  {| ApiTutorial.User.id := None;
     ApiTutorial.User.username := "john_doe";
     ApiTutorial.User.email := "other@example.com";
     ApiTutorial.User.full_name := None |}.

Definition bob : ApiTutorial.User.t :=
  {| ApiTutorial.User.id := None;
     ApiTutorial.User.username := "bob";
     ApiTutorial.User.email := "bob@example.com";
     ApiTutorial.User.full_name := Some "Bob" |}.

Definition bob_other_name : ApiTutorial.User.t :=
  {| ApiTutorial.User.id := None;
     ApiTutorial.User.username := "robert";
     ApiTutorial.User.email := "bob@example.com";
     ApiTutorial.User.full_name := None |}.

Definition only_users : Sqlite.storage :=
  {| Sqlite.st_items := None;
     Sqlite.st_users :=
       Some {| Sqlite.rows :=
                 [ {| Sqlite.ur_id := 7; Sqlite.ur_username := "carol";
                      Sqlite.ur_email := "carol@example.com";
                      Sqlite.ur_full_name := None |} ];
               Sqlite.seq := 9 |} |}.

(** ** Invariants and views of the store *)

(** The ids of a table are distinct and none is above its counter. *)
Definition table_ok (R : Type) (id_of : R -> Z) (t : Sqlite.table R)
  : Prop :=
  NoDup (map id_of (Sqlite.rows t))
  /\ forall i, In i (map id_of (Sqlite.rows t)) -> i <= Sqlite.seq t.

Definition items_ok (file : Sqlite.db) : Prop :=
  table_ok Sqlite.ir_id (Sqlite.items file).

Definition users_ok (file : Sqlite.db) : Prop :=
  table_ok Sqlite.ur_id (Sqlite.users file)
  /\ NoDup (map Sqlite.ur_username (Sqlite.rows (Sqlite.users file)))
  /\ NoDup (map Sqlite.ur_email (Sqlite.rows (Sqlite.users file))).

(** The same for a file in which a table may not exist yet. *)
Definition storage_ok (file : Sqlite.storage) : Prop :=
  let d := ApiTutorial.create_tables file in items_ok d /\ users_ok d.


(** The items that [list_items] answers with. *)
Definition listed (file : Sqlite.db) : list ApiTutorial.Item.t :=
  match snd (ApiTutorial.list_items file) with
  | Ok body => ApiTutorial.ListItems.items body
  | _ => []
  end.

(** The items that [search_items] answers with. *)
Definition found (name : option string) (price_min price_max : option Q)
    (file : Sqlite.db) : list ApiTutorial.Item.t :=
  match snd (ApiTutorial.search_items name price_min price_max file) with
  | Ok body => ApiTutorial.Search.items body
  | _ => []
  end.

(** The item listed under the id [id]. *)
Definition is_item (id : Z) (it : ApiTutorial.Item.t) : bool :=
  match ApiTutorial.Item.id it with
  | Some j => j =? id
  | None => false
  end.

(** The request body [item] with another [id] field. *)
Definition with_id (x : option Z) (item : ApiTutorial.Item.t)
  : ApiTutorial.Item.t :=
  {| ApiTutorial.Item.id := x;
     ApiTutorial.Item.name := ApiTutorial.Item.name item;
     ApiTutorial.Item.price := ApiTutorial.Item.price item;
     ApiTutorial.Item.is_offer := ApiTutorial.Item.is_offer item |}.

Definition with_user_id (x : option Z) (user : ApiTutorial.User.t)
  : ApiTutorial.User.t :=
  {| ApiTutorial.User.id := x;
     ApiTutorial.User.username := ApiTutorial.User.username user;
     ApiTutorial.User.email := ApiTutorial.User.email user;
     ApiTutorial.User.full_name := ApiTutorial.User.full_name user |}.

(** A non-empty text made of [%] only. *)
Fixpoint all_percent (s : string) : bool :=
  match s with
  | EmptyString => false
  | String c EmptyString => Sqlite.is_percent c
  | String c s' => Sqlite.is_percent c && all_percent s'
  end.

Definition not_found (A : Type) : result A :=
  HTTPException 404 "Item not found".

(** ** The router on a path that is already cut *)

Fixpoint first_full_pieces (routes : list Router.route)
    (m : Router.method) (pieces : list string) : option Router.resolution :=
  match routes with
  | [] => None
  | r :: routes' =>
      match
        Router.match_pieces (Router.compile_path (Router.route_path r))
          pieces
      with
      | Some params =>
          if Router.method_eqb (Router.route_method r) m
          then Some (Router.Endpoint (Router.route_name r) params)
          else first_full_pieces routes' m pieces
      | None => first_full_pieces routes' m pieces
      end
  end.

Definition known_pieces (routes : list Router.route)
    (pieces : list string) : bool :=
  existsb
    (fun r =>
       match
         Router.match_pieces (Router.compile_path (Router.route_path r))
           pieces
       with
       | Some _ => true
       | None => false
       end)
    routes.

Definition emptied : Sqlite.storage :=
  {| Sqlite.st_items := Some {| Sqlite.rows := []; Sqlite.seq := 8 |};
     Sqlite.st_users := None |}.

(** ** Tactics *)

Ltac same_rows :=
  repeat (apply f_equal2; [f_equal; lia|]); reflexivity.

Ltac same_table := apply f_equal2; [same_rows | lia].

Ltac scan_as_filter lem :=
  match goal with
  | |- context [filter ?k _] =>
      match goal with
      | |- context [Sqlite.scan ?t ?l] => rewrite (lem t k l)
      end
  end.

Ltac distinct :=
  repeat constructor; simpl;
  repeat match goal with
         | |- ~ _ => intros ?
         | H : _ \/ _ |- _ => destruct H
         | H : False |- _ => destruct H
         | H : ?a = ?b :> Z |- _ => lia
         | H : ?a = ?b :> string |- _ => discriminate H
         end.

(** * Properties *)

(** ** The pattern match *)

Section Like.

Import Sqlite.

Lemma append_empty_r (s : string) : s ++ "" = s.
Proof. induction s as [|c s IH]; simpl; congruence. Qed.

Lemma append_assoc3 (a b c : string) : (a ++ b) ++ c = a ++ b ++ c.
Proof. induction a as [|x a IH]; simpl; congruence. Qed.

Lemma lower_empty (s : string) : lower s = "" -> s = "".
Proof. destruct s; simpl; [reflexivity | discriminate]. Qed.

Lemma like_any_true (rest : string -> bool) (s : string) :
  like_any rest s = true <->
  exists pre post, s = pre ++ post /\ rest post = true.
Proof.
  induction s as [|c s IH]; simpl.
  - rewrite orb_false_r. split.
    + intros H. exists "", "". auto.
    + intros (pre & post & E & H).
      destruct pre; simpl in E; [subst post; exact H | discriminate].
  - rewrite orb_true_iff, IH. split.
    + intros [H | (pre & post & E & H)].
      * exists "", (String c s). auto.
      * exists (String c pre), post. simpl. subst s. auto.
    + intros (pre & post & E & H). destruct pre as [|x pre]; simpl in E.
      * left. subst post. exact H.
      * right. injection E as -> ->. eauto.
Qed.

Lemma like_percent (s : string) : like "%" s = true.
Proof.
  change (like_any (like "") s = true).
  apply like_any_true. exists s, "". split; [|reflexivity].
  symmetry. apply append_empty_r.
Qed.

Lemma like_percent_cons (pattern s : string) :
  like (String "%" pattern) s = like_any (like pattern) s.
Proof. reflexivity. Qed.

Lemma like_plain_cons (p : ascii) (pattern s : string) :
  is_percent p = false -> is_underscore p = false ->
  like (String p pattern) s
  = match s with
    | EmptyString => false
    | String c s' => same_nocase p c && like pattern s'
    end.
Proof. intros Hp Hu. simpl. rewrite Hp, Hu. reflexivity. Qed.

Lemma like_literal (f rest s : string) :
  wildcard_free f = true ->
  like (f ++ rest) s = true <->
  exists mid s', s = mid ++ s' /\ lower mid = lower f
                 /\ like rest s' = true.
Proof.
  revert s. induction f as [|p f IH]; intros s Hf.
  - simpl. split.
    + intros H. exists "", s. auto.
    + intros (mid & s' & E & L & H).
      apply lower_empty in L. subst. exact H.
  - simpl in Hf. apply andb_prop in Hf as [Hf Hf'].
    apply andb_prop in Hf as [Hp Hu].
    apply negb_true_iff in Hp, Hu.
    change (String p f ++ rest) with (String p (f ++ rest)).
    rewrite like_plain_cons by assumption.
    destruct s as [|c s].
    + split; [discriminate|].
      intros (mid & s' & E & L & _).
      destruct mid; simpl in *; discriminate.
    + rewrite andb_true_iff, (IH s Hf'). unfold same_nocase.
      rewrite Ascii.eqb_eq. split.
      * intros (Hc & mid & s' & E & L & H).
        exists (String c mid), s'. simpl. subst s.
        repeat split; [congruence | exact H].
      * intros (mid & s' & E & L & H).
        destruct mid as [|x mid]; simpl in L; [discriminate|].
        simpl in E. injection E as -> ->. injection L as Lx Lm.
        split; [congruence|]. eauto.
Qed.

(** A filter without [%] and [_], put between two [%], matches the
    names in which it occurs up to the case of ASCII letters. *)
Lemma like_contains_nocase (f s : string) :
  wildcard_free f = true ->
  like ("%" ++ f ++ "%") s = true <-> substring_nocase f s.
Proof.
  intros Hf. change ("%" ++ f ++ "%") with (String "%" (f ++ "%")).
  rewrite like_percent_cons, like_any_true. unfold substring_nocase.
  split.
  - intros (pre & post & E & H).
    apply (@like_literal f "%" post Hf) in H as (mid & s' & E' & L & _).
    exists pre, mid, s'. subst. auto.
  - intros (pre & mid & post & E & L).
    exists pre, (mid ++ post). split; [exact E|].
    apply (@like_literal f "%" (mid ++ post) Hf). exists mid, post.
    repeat split; [exact L | apply like_percent].
Qed.

Lemma like_percent_percent (s : string) : like "%%" s = true.
Proof.
  change (like_any (like "%") s = true).
  apply like_any_true. exists "", s. split; [reflexivity|].
  apply like_percent.
Qed.

Lemma starts_with_true (needle hay : string) :
  starts_with needle hay = true <-> exists post, hay = needle ++ post.
Proof.
  revert hay. induction needle as [|a needle IH]; intros hay; simpl.
  - split; eauto.
  - destruct hay as [|b hay].
    + split; [discriminate | intros (post & E); discriminate].
    + rewrite andb_true_iff, Ascii.eqb_eq, IH. split.
      * intros (-> & post & ->). eauto.
      * intros (post & E). injection E as -> ->. eauto.
Qed.

Lemma contains_true (needle hay : string) :
  contains needle hay = true <-> substring needle hay.
Proof.
  unfold substring. induction hay as [|b hay IH]; simpl.
  - rewrite orb_false_r, starts_with_true. split.
    + intros (post & E). exists "", post. exact E.
    + intros (pre & post & E).
      destruct pre; simpl in E; [eauto | discriminate].
  - rewrite orb_true_iff, starts_with_true, IH. split.
    + intros [(post & E) | (pre & post & E)].
      * exists "", post. exact E.
      * exists (String b pre), post. simpl. congruence.
    + intros (pre & post & E). destruct pre as [|x pre]; simpl in E.
      * left. eauto.
      * right. injection E as -> ->. eauto.
Qed.

End Like.

(** The store's [LIKE] reads pattern and text up to their first NUL:
    the name [a], NUL, [b] is the pattern [%a] and matches [Pizza]. *)
Example like_reads_c_strings :
  Sqlite.like_function ("%" ++ String "a" (String zero "b") ++ "%") "Pizza"
  = Sqlite.Done true.
Proof. reflexivity. Qed.

(** ** The sample store is the store of the first start *)

Example first_start : ApiTutorial.init_db no_file = Sqlite.Done sample_db.
Proof. reflexivity. Qed.

(** ** The search *)

Lemma c_string_nul_free (s : string) :
  nul_free s = true -> Sqlite.c_string s = s.
Proof.
  induction s as [|c s IH]; simpl; [reflexivity|].
  destruct (Ascii.eqb c zero); simpl; [discriminate|].
  intros H. rewrite (IH H). reflexivity.
Qed.

Lemma nul_free_pattern (f : string) :
  nul_free f = true -> nul_free ("%" ++ f ++ "%") = true.
Proof.
  intros H. simpl. induction f as [|c f IH]; simpl; [reflexivity|].
  simpl in H. apply andb_prop in H as [Hc Hf].
  rewrite Hc. simpl. apply IH. exact Hf.
Qed.

Lemma scan_done (test : Sqlite.item_row -> Sqlite.outcome bool)
    (f : Sqlite.item_row -> bool) (l : list Sqlite.item_row) :
  (forall r, test r = Sqlite.Done (f r)) ->
  Sqlite.scan test l = Sqlite.Done (filter f l).
Proof.
  intros H. induction l as [|r l IH]; simpl; [reflexivity|].
  rewrite H, IH. destruct (f r); reflexivity.
Qed.

Lemma scan_raised (test : Sqlite.item_row -> Sqlite.outcome bool)
    (e : Sqlite.error) (l : list Sqlite.item_row) :
  l <> [] -> (forall r, test r = Sqlite.Raised e) ->
  Sqlite.scan test l = Sqlite.Raised e.
Proof.
  intros Hl H. destruct l as [|r l]; [contradiction|].
  simpl. rewrite H. reflexivity.
Qed.

Lemma like_function_fits (pattern s : string) :
  (Sqlite.utf8_length pattern <=? Sqlite.LIKE_PATTERN_LENGTH) = true ->
  Sqlite.like_function pattern s
  = Sqlite.Done (Sqlite.like (Sqlite.c_string pattern) (Sqlite.c_string s)).
Proof.
  intros H. unfold Sqlite.like_function.
  rewrite Z.ltb_antisym, H. reflexivity.
Qed.

Lemma like_function_too_long (pattern s : string) :
  (Sqlite.utf8_length pattern <=? Sqlite.LIKE_PATTERN_LENGTH) = false ->
  Sqlite.like_function pattern s = Sqlite.Raised Sqlite.OperationalError.
Proof.
  intros H. unfold Sqlite.like_function.
  rewrite Z.ltb_antisym, H. reflexivity.
Qed.

Lemma search_items_filter name price_min price_max (file : Sqlite.db) :
  name_fits name = true ->
  search_returns name price_min price_max file
    (filter (keeps name price_min price_max)
       (Sqlite.rows (Sqlite.items file))).
Proof.
  unfold search_returns, ApiTutorial.search_items, name_fits, keeps.
  destruct name as [n|], price_min as [lo|], price_max as [hi|];
    try destruct (truthy (Some n)); intros Hfit; simpl;
    unfold Sqlite.select_items; simpl;
    (scan_as_filter (@scan_done);
     [rewrite length_map; reflexivity
     |intros r; simpl;
      rewrite ?(like_function_fits _ _ Hfit); simpl;
      repeat match goal with
             | |- context [Sqlite.like_any ?f ?x] =>
                 destruct (Sqlite.like_any f x)
             | |- context [Sqlite.like ?p ?x] => destruct (Sqlite.like p x)
             | |- context [Qle_bool ?a ?b] => destruct (Qle_bool a b)
             end; reflexivity]).
Qed.

Lemma search_items_too_long name price_min price_max (file : Sqlite.db) :
  name_fits name = false ->
  Sqlite.rows (Sqlite.items file) <> [] ->
  ApiTutorial.search_items name price_min price_max file
  = (file, Uncaught Sqlite.OperationalError).
Proof.
  unfold ApiTutorial.search_items, name_fits.
  destruct name as [n|]; [|discriminate].
  destruct (truthy (Some n)); [|discriminate].
  intros Hfit Hrows.
  destruct price_min as [lo|], price_max as [hi|]; simpl;
    unfold Sqlite.select_items; simpl;
    (rewrite (@scan_raised _ Sqlite.OperationalError _ Hrows);
     [reflexivity
     |intros r; rewrite (like_function_too_long _ _ Hfit); reflexivity]).
Qed.

Lemma search_items_no_rows name price_min price_max (file : Sqlite.db) :
  Sqlite.rows (Sqlite.items file) = [] ->
  search_returns name price_min price_max file [].
Proof.
  unfold search_returns, ApiTutorial.search_items. intros Hrows.
  destruct name as [n|], price_min as [lo|], price_max as [hi|];
    try destruct (truthy (Some n)); simpl;
    unfold Sqlite.select_items; simpl; rewrite Hrows; reflexivity.
Qed.

Lemma keeps_passes name price_min price_max (r : Sqlite.item_row) :
  name_fits name = true ->
  keeps name price_min price_max r = true
  <-> passes name price_min price_max r.
Proof.
  unfold keeps, passes, name_fits. intros Hfit.
  rewrite !andb_true_iff. split.
  - intros [[Hn Hlo] Hhi]. repeat split.
    + intros n ->. cbv beta iota in Hn, Hfit.
      destruct (truthy (Some n)) eqn:T.
      * rewrite (like_function_fits _ _ Hfit), Hn. reflexivity.
      * unfold truthy in T. apply negb_false_iff, String.eqb_eq in T.
        subst n. rewrite like_function_fits by reflexivity.
        change (Sqlite.c_string ("%" ++ "" ++ "%")) with "%%".
        rewrite like_percent_percent. reflexivity.
    + intros p ->. apply Qle_bool_iff. exact Hlo.
    + intros p ->. apply Qle_bool_iff. exact Hhi.
  - intros (Hn & Hlo & Hhi). repeat split.
    + destruct name as [n|]; [|reflexivity].
      destruct (truthy (Some n)); [|reflexivity].
      specialize (Hn n eq_refl).
      rewrite (like_function_fits _ _ Hfit) in Hn.
      injection Hn as Hn. exact Hn.
    + destruct price_min as [p|]; [|reflexivity].
      apply Qle_bool_iff. apply Hlo. reflexivity.
    + destruct price_max as [p|]; [|reflexivity].
      apply Qle_bool_iff. apply Hhi. reflexivity.
Qed.

Lemma filter_keeps_none (l : list Sqlite.item_row) :
  filter (keeps None None None) l = l.
Proof. induction l as [|r l IH]; simpl; congruence. Qed.

(** C1, as amended.  When the pattern [%name%] is within the length that
    the store's [LIKE] accepts, [search_items] returns the rows of [items]
    that pass every filter that is present, and only those, in table
    order: the filters combine by AND.  A price bound is inclusive: a row
    whose price equals both [price_min] and [price_max] is returned.  With
    no filter at all, every row of the table is returned.  The store is
    left as it was. *)
Theorem search_items_filters_conjunctive name price_min price_max file :
  name_fits name = true ->
  (exists keep,
      search_returns name price_min price_max file
        (filter keep (Sqlite.rows (Sqlite.items file)))
      /\ forall r, keep r = true <-> passes name price_min price_max r)
  /\ (forall r,
         In r (Sqlite.rows (Sqlite.items file)) ->
         exists hits,
           search_returns None (Some (Sqlite.ir_price r))
             (Some (Sqlite.ir_price r)) file hits
           /\ In r hits)
  /\ search_returns None None None file (Sqlite.rows (Sqlite.items file)).
Proof.
  intros Hfit. split; [|split].
  - exists (keeps name price_min price_max). split.
    + apply search_items_filter. exact Hfit.
    + intros r. apply keeps_passes. exact Hfit.
  - intros r Hr.
    eexists. split; [apply search_items_filter; reflexivity|].
    apply filter_In. split; [exact Hr|].
    apply keeps_passes; [reflexivity|]. repeat split.
    + discriminate.
    + intros p [= <-]. apply Qle_refl.
    + intros p [= <-]. apply Qle_refl.
  - pose proof (@search_items_filter None None None file eq_refl) as H.
    rewrite filter_keeps_none in H. exact H.
Qed.

Lemma search_items_filters_conjunctive_witness :
  name_fits (Some "o") = true
  /\ exists keep,
      search_returns (Some "o") (Some 100%Q) (Some 300%Q) sample_db
        (filter keep (Sqlite.rows (Sqlite.items sample_db)))
      /\ forall r,
          keep r = true <-> passes (Some "o") (Some 100%Q) (Some 300%Q) r.
Proof.
  split; [reflexivity|].
  apply (@search_items_filters_conjunctive (Some "o") (Some 100%Q)
           (Some 300%Q) sample_db eq_refl).
Defined.

(** C1, as stated, fails.  On the store of the first start, a name filter
    of 49999 characters is present but narrows nothing: the store refuses
    the pattern and the request ends in an error that no handler
    catches. *)
Lemma search_long_name_fails :
  truthy (Some long_name) = true
  /\ ApiTutorial.search_items (Some long_name) None None sample_db
     = (sample_db, Uncaught Sqlite.OperationalError).
Proof.
  split; [vm_compute; reflexivity|].
  apply search_items_too_long; [vm_compute; reflexivity | discriminate].
Qed.

(** C2, as amended.  For a name filter with no [%], no [_] and no NUL in
    it, whose pattern [%name%] is within the length that the store's
    [LIKE] accepts, [search_items] returns exactly the rows in whose name
    (as the store reads it: up to its first NUL, if it has one) the
    filter occurs when ASCII letters are compared without regard to
    case. *)
Theorem name_filter_is_substring_nocase (f : string) (file : Sqlite.db) :
  wildcard_free f = true ->
  nul_free f = true ->
  name_fits (Some f) = true ->
  exists keep,
    search_returns (Some f) None None file
      (filter keep (Sqlite.rows (Sqlite.items file)))
    /\ forall r,
        keep r = true
        <-> substring_nocase f (Sqlite.c_string (Sqlite.ir_name r)).
Proof.
  intros Hf Hnul Hfit. exists (keeps (Some f) None None). split.
  - apply search_items_filter. exact Hfit.
  - intros r. unfold keeps. rewrite !andb_true_r.
    rewrite <- (@like_contains_nocase f _ Hf).
    rewrite (c_string_nul_free _ (nul_free_pattern _ Hnul)).
    destruct (truthy (Some f)) eqn:T; [tauto|].
    unfold truthy in T. apply negb_false_iff, String.eqb_eq in T.
    subst f. split; [intros _; apply like_percent_percent | reflexivity].
Qed.

Lemma name_filter_is_substring_nocase_witness :
  wildcard_free "laptop" = true
  /\ nul_free "laptop" = true
  /\ name_fits (Some "laptop") = true
  /\ exists keep,
      search_returns (Some "laptop") None None sample_db
        (filter keep (Sqlite.rows (Sqlite.items sample_db)))
      /\ forall r,
          keep r = true
          <-> substring_nocase "laptop"
                (Sqlite.c_string (Sqlite.ir_name r)).
Proof.
  split; [reflexivity|]. split; [reflexivity|]. split; [reflexivity|].
  apply (@name_filter_is_substring_nocase "laptop" sample_db);
    reflexivity.
Defined.

(** C2, as stated, fails.  On the store of the first start, the filter
    [laptop] returns the row named [Laptop], and so does the filter
    [L_p]; neither string occurs in [Laptop] character for character.
    On a store whose one item has a name of 49999 characters, that
    name as the filter occurs in the row's name and yet matches nothing:
    the request ends in an error.  And on a store whose one item is
    named [Pizza], the filter [a], NUL, [b] returns that row. *)
Lemma name_filter_not_case_sensitive_substring :
  In laptop_row (Sqlite.rows (Sqlite.items sample_db))
  /\ (search_returns (Some "laptop") None None sample_db [laptop_row]
      /\ ~ substring "laptop" (Sqlite.ir_name laptop_row))
  /\ (search_returns (Some "L_p") None None sample_db [laptop_row]
      /\ ~ substring "L_p" (Sqlite.ir_name laptop_row))
  /\ (In long_row (Sqlite.rows (Sqlite.items long_db))
      /\ substring long_name (Sqlite.ir_name long_row)
      /\ ApiTutorial.search_items (Some long_name) None None long_db
         = (long_db, Uncaught Sqlite.OperationalError))
  /\ (search_returns (Some a_nul_b) None None pizza_db [pizza_row]
      /\ ~ substring a_nul_b (Sqlite.ir_name pizza_row)).
Proof.
  split; [left; reflexivity|].
  split; [split; [reflexivity|];
          intros H; apply contains_true in H; discriminate H|].
  split; [split; [reflexivity|];
          intros H; apply contains_true in H; discriminate H|].
  split.
  - split; [left; reflexivity|]. split.
    + exists "", "". change (long_name = long_name ++ "").
      symmetry. apply append_empty_r.
    + apply search_items_too_long;
        [vm_compute; reflexivity | discriminate].
  - split; [reflexivity|].
    intros H; apply contains_true in H; discriminate H.
Qed.

(** ** Rows by id *)

Section RowsById.

Variable id : Z.

Lemma hit_nil (l : list Sqlite.item_row) :
  filter (has_id id) l = [] <-> ~ In id (map Sqlite.ir_id l).
Proof.
  induction l as [|r l IH]; simpl.
  - tauto.
  - unfold has_id at 1.
    destruct (Z.eqb_spec (Sqlite.ir_id r) id) as [E|E].
    + split; [discriminate | tauto].
    + rewrite IH. tauto.
Qed.

Lemma rowcount_zero (l : list Sqlite.item_row) :
  Z.of_nat (List.length (filter (has_id id) l)) = 0
  <-> ~ In id (map Sqlite.ir_id l).
Proof.
  rewrite <- hit_nil. destruct (filter (has_id id) l); simpl; split;
    try reflexivity; try discriminate; lia.
Qed.

Lemma fetchone_none (l : list Sqlite.item_row) :
  hd_error (map Sqlite.ir_id (filter (has_id id) l)) = None
  <-> ~ In id (map Sqlite.ir_id l).
Proof.
  rewrite <- hit_nil. destruct (filter (has_id id) l); simpl; split;
    try reflexivity; discriminate.
Qed.

End RowsById.

Lemma storable_cases (z : Z) :
  Sqlite.storable z \/ Sqlite.storableb z = false.
Proof.
  unfold Sqlite.storable. destruct (Sqlite.storableb z); auto.
Qed.

Lemma update_item_overflow item_id item file :
  Sqlite.storableb item_id = false ->
  ApiTutorial.update_item item_id item file
  = (file, Uncaught Sqlite.OverflowError).
Proof.
  intros H. unfold ApiTutorial.update_item, Sqlite.update_items,
    Sqlite.bind_int. rewrite H. reflexivity.
Qed.

Lemma delete_item_overflow item_id file :
  Sqlite.storableb item_id = false ->
  ApiTutorial.delete_item item_id file
  = (file, Uncaught Sqlite.OverflowError).
Proof.
  intros H. unfold ApiTutorial.delete_item, Sqlite.delete_items,
    Sqlite.bind_int. rewrite H. reflexivity.
Qed.

Lemma status_overflow item_id file :
  Sqlite.storableb item_id = false ->
  ApiTutorial.read_item_with_status item_id file
  = (file, Uncaught Sqlite.OverflowError).
Proof.
  intros H. unfold ApiTutorial.read_item_with_status,
    Sqlite.select_item_id, Sqlite.bind_int. rewrite H. reflexivity.
Qed.

Lemma update_rowcount item_id item file :
  Sqlite.storable item_id ->
  exists conn,
    Sqlite.update_items (ApiTutorial.Item.name item)
      (ApiTutorial.Item.price item)
      (Sqlite.bind_bool (ApiTutorial.Item.is_offer item))
      item_id (Sqlite.connect file)
    = Sqlite.Done
        (conn,
         Z.of_nat
           (List.length
              (filter (has_id item_id) (Sqlite.rows (Sqlite.items file))))).
Proof.
  intros H. unfold Sqlite.update_items, Sqlite.bind_int.
  rewrite H. eexists. reflexivity.
Qed.

Lemma delete_rowcount item_id file :
  Sqlite.storable item_id ->
  exists conn,
    Sqlite.delete_items item_id (Sqlite.connect file)
    = Sqlite.Done
        (conn,
         Z.of_nat
           (List.length
              (filter (has_id item_id) (Sqlite.rows (Sqlite.items file))))).
Proof.
  intros H. unfold Sqlite.delete_items, Sqlite.bind_int.
  rewrite H. eexists. reflexivity.
Qed.

Lemma update_item_absent item_id item file :
  Sqlite.storable item_id ->
  ~ In item_id (item_ids file) ->
  ApiTutorial.update_item item_id item file
  = (file, HTTPException 404 "Item not found").
Proof.
  intros Hs Hout. apply (rowcount_zero item_id) in Hout.
  unfold ApiTutorial.update_item, Sqlite.update_items, Sqlite.bind_int.
  rewrite Hs. simpl. unfold has_id in Hout. rewrite Hout. reflexivity.
Qed.

Lemma delete_item_absent item_id file :
  Sqlite.storable item_id ->
  ~ In item_id (item_ids file) ->
  ApiTutorial.delete_item item_id file
  = (file, HTTPException 404 "Item not found").
Proof.
  intros Hs Hout. apply (rowcount_zero item_id) in Hout.
  unfold ApiTutorial.delete_item, Sqlite.delete_items, Sqlite.bind_int.
  rewrite Hs. simpl. unfold has_id in Hout. rewrite Hout. reflexivity.
Qed.

Lemma rowcount_positive item_id file :
  In item_id (item_ids file) ->
  (Z.of_nat
     (List.length
        (filter (fun r => Sqlite.ir_id r =? item_id)
           (Sqlite.rows (Sqlite.items file)))) =? 0) = false.
Proof.
  intros Hin. apply Z.eqb_neq. intros Z.
  apply (rowcount_zero item_id) in Z. contradiction.
Qed.

Lemma update_item_present item_id item file :
  Sqlite.storable item_id ->
  In item_id (item_ids file) ->
  ApiTutorial.update_item item_id item file
  = ({| Sqlite.items :=
          {| Sqlite.rows :=
               map (Sqlite.update_item_row (ApiTutorial.Item.name item)
                      (ApiTutorial.Item.price item)
                      (Sqlite.bind_bool (ApiTutorial.Item.is_offer item))
                      item_id)
                 (Sqlite.rows (Sqlite.items file));
             Sqlite.seq := Sqlite.seq (Sqlite.items file) |};
        Sqlite.users := Sqlite.users file |},
     Ok {| ApiTutorial.UpdateItem.item_id := item_id;
           ApiTutorial.UpdateItem.item := item;
           ApiTutorial.UpdateItem.message := "Item updated" |}).
Proof.
  intros Hs Hin.
  unfold ApiTutorial.update_item, Sqlite.update_items, Sqlite.bind_int.
  rewrite Hs. simpl. rewrite (@rowcount_positive item_id file Hin). reflexivity.
Qed.

Lemma delete_item_present item_id file :
  Sqlite.storable item_id ->
  In item_id (item_ids file) ->
  ApiTutorial.delete_item item_id file
  = ({| Sqlite.items :=
          {| Sqlite.rows :=
               filter (fun r => negb (has_id item_id r))
                 (Sqlite.rows (Sqlite.items file));
             Sqlite.seq := Sqlite.seq (Sqlite.items file) |};
        Sqlite.users := Sqlite.users file |},
     Ok {| ApiTutorial.DeleteItem.message :=
             "Item " ++ str item_id ++ " deleted" |}).
Proof.
  intros Hs Hin.
  unfold ApiTutorial.delete_item, Sqlite.delete_items, Sqlite.bind_int.
  rewrite Hs. simpl. rewrite (@rowcount_positive item_id file Hin). reflexivity.
Qed.

Lemma status_present item_id file :
  Sqlite.storable item_id ->
  In item_id (item_ids file) ->
  ApiTutorial.read_item_with_status item_id file
  = (file,
     Ok {| ApiTutorial.Status.item_id := item_id;
           ApiTutorial.Status.status := "found" |}).
Proof.
  intros Hs Hin. unfold ApiTutorial.read_item_with_status,
    Sqlite.select_item_id, Sqlite.bind_int. rewrite Hs. simpl.
  pose proof (fetchone_none item_id (Sqlite.rows (Sqlite.items file))) as F.
  unfold has_id in F.
  destruct (hd_error _) as [x|]; [reflexivity|].
  exfalso. apply F; [reflexivity | exact Hin].
Qed.

Lemma status_absent item_id file :
  Sqlite.storable item_id ->
  ~ In item_id (item_ids file) ->
  ApiTutorial.read_item_with_status item_id file
  = (file, HTTPException 404 "Item not found").
Proof.
  intros Hs Hout. unfold ApiTutorial.read_item_with_status,
    Sqlite.select_item_id, Sqlite.bind_int. rewrite Hs. simpl.
  pose proof (fetchone_none item_id (Sqlite.rows (Sqlite.items file))) as F.
  unfold has_id in F. apply F in Hout. rewrite Hout. reflexivity.
Qed.

(** C3, as amended.  For an [item_id] within the signed 64-bit range
    that no row of [items] has, the [UPDATE] and the [DELETE] statement
    each report a row count of zero, and [update_item] and [delete_item]
    each raise the 404 error "Item not found". *)
Theorem update_delete_absent_not_found item_id item file :
  Sqlite.storable item_id ->
  ~ In item_id (item_ids file) ->
  (exists conn,
      Sqlite.update_items (ApiTutorial.Item.name item)
        (ApiTutorial.Item.price item)
        (Sqlite.bind_bool (ApiTutorial.Item.is_offer item))
        item_id (Sqlite.connect file) = Sqlite.Done (conn, 0))
  /\ snd (ApiTutorial.update_item item_id item file)
     = HTTPException 404 "Item not found"
  /\ (exists conn,
         Sqlite.delete_items item_id (Sqlite.connect file)
         = Sqlite.Done (conn, 0))
  /\ snd (ApiTutorial.delete_item item_id file)
     = HTTPException 404 "Item not found".
Proof.
  intros Hs Habsent.
  pose proof Habsent as Hzero. apply (rowcount_zero item_id) in Hzero.
  split; [|split; [|split]].
  - destruct (@update_rowcount item_id item file Hs) as [conn E].
    exists conn. rewrite E, Hzero. reflexivity.
  - rewrite (@update_item_absent item_id item file Hs Habsent). reflexivity.
  - destruct (@delete_rowcount item_id file Hs) as [conn E].
    exists conn. rewrite E, Hzero. reflexivity.
  - rewrite (@delete_item_absent item_id file Hs Habsent). reflexivity.
Qed.

Lemma update_delete_absent_not_found_witness :
  Sqlite.storable 999
  /\ ~ In 999 (item_ids sample_db)
  /\ snd (ApiTutorial.update_item 999 a_trackball sample_db)
     = HTTPException 404 "Item not found"
  /\ snd (ApiTutorial.delete_item 999 sample_db)
     = HTTPException 404 "Item not found".
Proof.
  assert (H : ~ In 999 (item_ids sample_db)).
  { simpl. intros [E|[E|[E|[E|[E|[]]]]]]; discriminate E. }
  split; [reflexivity|]. split; [exact H|].
  destruct (@update_delete_absent_not_found 999 a_trackball sample_db
              eq_refl H)
    as (_ & Hu & _ & Hd).
  split; assumption.
Defined.

(** C3, as stated, fails.  No row of the store of the first start has the
    id 2^63, and neither [update_item] nor [delete_item] raises the 404
    error for it: the store cannot bind the number, and the request ends
    in an error that no handler catches. *)
Lemma update_delete_beyond_range_not_404 :
  ~ In (2 ^ 63) (item_ids sample_db)
  /\ snd (ApiTutorial.update_item (2 ^ 63) a_trackball sample_db)
     = Uncaught Sqlite.OverflowError
  /\ snd (ApiTutorial.delete_item (2 ^ 63) sample_db)
     = Uncaught Sqlite.OverflowError.
Proof.
  split; [|split; reflexivity].
  simpl. intros [E|[E|[E|[E|[E|[]]]]]]; discriminate E.
Qed.

(** C9.  When [update_item] or [delete_item] raises an [HTTPException],
    the store it leaves is the store it was given. *)
Theorem not_found_leaves_store_unchanged item_id item file :
  (forall status_code detail,
      snd (ApiTutorial.update_item item_id item file)
      = HTTPException status_code detail ->
      fst (ApiTutorial.update_item item_id item file) = file)
  /\ (forall status_code detail,
         snd (ApiTutorial.delete_item item_id file)
         = HTTPException status_code detail ->
         fst (ApiTutorial.delete_item item_id file) = file).
Proof.
  destruct (storable_cases item_id) as [Hs | Hs];
    destruct (in_dec Z.eq_dec item_id (item_ids file)) as [Hin | Hout];
    split; intros status_code detail H;
    rewrite ?(@update_item_overflow item_id item file Hs),
      ?(@delete_item_overflow item_id file Hs),
      ?(@update_item_present item_id item file Hs Hin),
      ?(@delete_item_present item_id file Hs Hin),
      ?(@update_item_absent item_id item file Hs Hout),
      ?(@delete_item_absent item_id file Hs Hout) in *;
    first [reflexivity | discriminate H].
Qed.

Lemma not_found_leaves_store_unchanged_witness :
  (snd (ApiTutorial.update_item 999 a_trackball sample_db)
   = HTTPException 404 "Item not found"
   /\ fst (ApiTutorial.update_item 999 a_trackball sample_db) = sample_db)
  /\ (snd (ApiTutorial.delete_item 999 sample_db)
      = HTTPException 404 "Item not found"
      /\ fst (ApiTutorial.delete_item 999 sample_db) = sample_db).
Proof.
  destruct (@not_found_leaves_store_unchanged 999 a_trackball sample_db)
    as [Hu Hd].
  split; (split; [reflexivity|]).
  - apply (Hu 404 "Item not found"). reflexivity.
  - apply (Hd 404 "Item not found"). reflexivity.
Defined.

(** C6, as amended.  For an [item_id] within the signed 64-bit range,
    [read_item_with_status] raises the 404 error "Item not found" exactly
    when no row of [items] has the id, and answers
    [{item_id, status: found}] exactly when a row has it; it leaves the
    store as it was. *)
Theorem read_item_with_status_iff item_id file :
  Sqlite.storable item_id ->
  fst (ApiTutorial.read_item_with_status item_id file) = file
  /\ (snd (ApiTutorial.read_item_with_status item_id file)
      = HTTPException 404 "Item not found"
      <-> ~ In item_id (item_ids file))
  /\ (snd (ApiTutorial.read_item_with_status item_id file)
      = Ok {| ApiTutorial.Status.item_id := item_id;
              ApiTutorial.Status.status := "found" |}
      <-> In item_id (item_ids file)).
Proof.
  intros Hs.
  destruct (in_dec Z.eq_dec item_id (item_ids file)) as [Hin | Hout].
  - rewrite (@status_present item_id file Hs Hin). simpl.
    repeat split; try tauto; discriminate.
  - rewrite (@status_absent item_id file Hs Hout). simpl.
    repeat split; try tauto; discriminate.
Qed.

Lemma read_item_with_status_iff_witness :
  Sqlite.storable 3
  /\ snd (ApiTutorial.read_item_with_status 3 sample_db)
     = Ok {| ApiTutorial.Status.item_id := 3;
             ApiTutorial.Status.status := "found" |}
  /\ In 3 (item_ids sample_db).
Proof.
  split; [reflexivity|].
  destruct (@read_item_with_status_iff 3 sample_db eq_refl)
    as (_ & _ & Hfound).
  split; [reflexivity|]. apply Hfound. reflexivity.
Defined.

(** C6, as stated, fails.  No row of the store of the first start has the
    id -2^63-1, and [read_item_with_status] does not raise the 404 error
    for it: the store cannot bind the number, and the request ends in an
    error that no handler catches. *)
Lemma status_beyond_range_not_404 :
  ~ In (- 2 ^ 63 - 1) (item_ids sample_db)
  /\ snd (ApiTutorial.read_item_with_status (- 2 ^ 63 - 1) sample_db)
     = Uncaught Sqlite.OverflowError.
Proof.
  split; [|reflexivity].
  simpl. intros [E|[E|[E|[E|[E|[]]]]]]; discriminate E.
Qed.

(** ** Row ids handed out by the store *)

Lemma fold_max_le_start (l : list Z) (i : Z) : i <= fold_left Z.max l i.
Proof.
  revert i. induction l as [|a l IH]; intros i; simpl.
  - lia.
  - specialize (IH (Z.max i a)). lia.
Qed.

Lemma fold_max_ge (l : list Z) (i x : Z) :
  In x l -> x <= fold_left Z.max l i.
Proof.
  revert i. induction l as [|a l IH]; intros i; simpl.
  - contradiction.
  - intros [E | Hx].
    + pose proof (fold_max_le_start l (Z.max i a)). lia.
    + apply IH. exact Hx.
Qed.

Lemma new_rowid_above (ids : list Z) (seq x : Z) :
  In x ids -> x < Sqlite.new_rowid ids seq.
Proof.
  unfold Sqlite.new_rowid. destruct ids as [|i l]; [contradiction|].
  intros [E | Hx].
  - pose proof (fold_max_le_start l i). lia.
  - pose proof (fold_max_ge l i x Hx). lia.
Qed.

Lemma new_rowid_fresh (ids : list Z) (seq : Z) :
  ~ In (Sqlite.new_rowid ids seq) ids.
Proof. intros H. apply (new_rowid_above ids seq) in H. lia. Qed.


Lemma filter_all (A : Type) (l : list A) : filter (fun _ => true) l = l.
Proof. induction l as [|a l IH]; simpl; congruence. Qed.

Lemma list_items_all file :
  ApiTutorial.list_items file
  = (file,
     Ok {| ApiTutorial.ListItems.items :=
             map ApiTutorial.row_to_Item (Sqlite.rows (Sqlite.items file));
           ApiTutorial.ListItems.count :=
             Z.of_nat (List.length (Sqlite.rows (Sqlite.items file))) |}).
Proof.
  unfold ApiTutorial.list_items, Sqlite.select_items. simpl.
  rewrite (@scan_done _ (fun _ => true)) by reflexivity.
  rewrite filter_all, length_map. reflexivity.
Qed.

Lemma list_items_again_same file :
  ApiTutorial.list_items_again file = ApiTutorial.list_items file.
Proof. reflexivity. Qed.


(** ** Users *)

Lemma unique_check_true (username email : string)
    (l : list Sqlite.user_row) :
  existsb
    (fun r =>
       String.eqb (Sqlite.ur_username r) username
       || String.eqb (Sqlite.ur_email r) email) l = true
  <-> exists r,
      In r l
      /\ (Sqlite.ur_username r = username \/ Sqlite.ur_email r = email).
Proof.
  rewrite existsb_exists. split; intros (r & Hr & H); exists r;
    (split; [exact Hr|]).
  - apply orb_true_iff in H. rewrite !String.eqb_eq in H. exact H.
  - apply orb_true_iff. rewrite !String.eqb_eq. exact H.
Qed.

Lemma create_user_taken user file :
  taken user file -> ApiTutorial.create_user user file = (file, conflict).
Proof.
  intros H. apply unique_check_true in H.
  unfold ApiTutorial.create_user, Sqlite.insert_user. simpl.
  rewrite H. reflexivity.
Qed.

Lemma create_user_free user file :
  ~ taken user file ->
  let user_id := Sqlite.new_rowid (user_ids file)
                   (Sqlite.seq (Sqlite.users file)) in
  let row :=
    {| Sqlite.ur_id := user_id;
       Sqlite.ur_username := ApiTutorial.User.username user;
       Sqlite.ur_email := ApiTutorial.User.email user;
       Sqlite.ur_full_name := ApiTutorial.User.full_name user |} in
  ApiTutorial.create_user user file
  = ({| Sqlite.items := Sqlite.items file;
        Sqlite.users :=
          {| Sqlite.rows := Sqlite.rows (Sqlite.users file) ++ [row];
             Sqlite.seq := user_id |} |},
     Ok {| ApiTutorial.CreateUser.user :=
             {| ApiTutorial.User.id := Some user_id;
                ApiTutorial.User.username :=
                  ApiTutorial.User.username user;
                ApiTutorial.User.email := ApiTutorial.User.email user;
                ApiTutorial.User.full_name :=
                  ApiTutorial.User.full_name user |};
           ApiTutorial.CreateUser.message := "User created" |}).
Proof.
  intros H. unfold ApiTutorial.create_user, Sqlite.insert_user. simpl.
  destruct (existsb _ _) eqn:E.
  - apply unique_check_true in E. contradiction.
  - reflexivity.
Qed.

(** C4.  [create_user] raises the 400 error, and leaves the store as it
    was, when a stored user has the username or the email of the request.
    Otherwise it stores the user and answers with it under an id that no
    stored user had.  So after a request that succeeded, a second request
    with the same username or the same email raises the 400 error. *)
Theorem create_user_conflict_or_created user file :
  (taken user file ->
   ApiTutorial.create_user user file = (file, conflict))
  /\ (~ taken user file ->
      exists user_id file',
        ApiTutorial.create_user user file
        = (file',
           Ok {| ApiTutorial.CreateUser.user :=
                   {| ApiTutorial.User.id := Some user_id;
                      ApiTutorial.User.username :=
                        ApiTutorial.User.username user;
                      ApiTutorial.User.email := ApiTutorial.User.email user;
                      ApiTutorial.User.full_name :=
                        ApiTutorial.User.full_name user |};
                 ApiTutorial.CreateUser.message := "User created" |})
        /\ ~ In user_id (user_ids file)
        /\ Sqlite.rows (Sqlite.users file')
           = (Sqlite.rows (Sqlite.users file)
              ++ [ {| Sqlite.ur_id := user_id;
                      Sqlite.ur_username := ApiTutorial.User.username user;
                      Sqlite.ur_email := ApiTutorial.User.email user;
                      Sqlite.ur_full_name :=
                        ApiTutorial.User.full_name user |} ])%list
        /\ forall second,
            ApiTutorial.User.username second
            = ApiTutorial.User.username user
            \/ ApiTutorial.User.email second = ApiTutorial.User.email user ->
            ApiTutorial.create_user second file' = (file', conflict)).
Proof.
  split.
  - apply create_user_taken.
  - intros Hfree. eexists. eexists.
    split; [apply (create_user_free Hfree)|].
    split; [apply new_rowid_fresh|].
    split; [reflexivity|].
    intros second Hsame. apply create_user_taken.
    eexists. split.
    + simpl. apply in_or_app. right. left. reflexivity.
    + simpl. destruct Hsame as [E|E]; [left | right]; symmetry; exact E.
Qed.

Lemma bob_is_new : ~ taken bob sample_db.
Proof.
  intros H. apply unique_check_true in H. discriminate H.
Qed.

Lemma create_user_conflict_or_created_witness :
  (taken john_again sample_db
   /\ ApiTutorial.create_user john_again sample_db = (sample_db, conflict))
  /\ (~ taken bob sample_db
      /\ exists file',
          fst (ApiTutorial.create_user bob sample_db) = file'
          /\ snd (ApiTutorial.create_user bob sample_db)
             = Ok {| ApiTutorial.CreateUser.user :=
                       {| ApiTutorial.User.id := Some 4;
                          ApiTutorial.User.username := "bob";
                          ApiTutorial.User.email := "bob@example.com";
                          ApiTutorial.User.full_name := Some "Bob" |};
                     ApiTutorial.CreateUser.message := "User created" |}
          /\ ApiTutorial.create_user bob_other_name file'
             = (file', conflict)).
Proof.
  destruct (create_user_conflict_or_created john_again sample_db)
    as [Htaken _].
  destruct (create_user_conflict_or_created bob sample_db) as [_ Hfree].
  assert (T : taken john_again sample_db).
  { apply unique_check_true. reflexivity. }
  split; [split; [exact T | exact (Htaken T)]|].
  split; [exact bob_is_new|].
  destruct (Hfree bob_is_new) as (user_id & file' & E & _ & _ & Hsecond).
  exists file'. rewrite E. simpl. split; [reflexivity|].
  split.
  - rewrite (create_user_free bob_is_new) in E.
    injection E as _ <-. reflexivity.
  - apply Hsecond. right. reflexivity.
Defined.

(** ** The first start *)


Lemma init_db_seeded file :
  ApiTutorial.init_db file
  = Sqlite.Done
      {| Sqlite.items :=
           seeded_items (Sqlite.items (ApiTutorial.create_tables file));
         Sqlite.users :=
           seeded_users (Sqlite.users (ApiTutorial.create_tables file)) |}.
Proof.
  unfold ApiTutorial.init_db.
  destruct (ApiTutorial.create_tables file) as [[ri si] [ru su]].
  unfold seeded_items, seeded_users, numbered_items, numbered_users,
    first_rowid.
  destruct ri as [|r ri], ru as [|u ru]; simpl;
    unfold Sqlite.new_rowid; simpl;
    apply f_equal; apply f_equal2;
    first [reflexivity | same_table].
Qed.





(** ** Routes *)

Lemma split_digits (d : Decimal.uint) :
  Router.split_slash (NilEmpty.string_of_uint d)
  = [NilEmpty.string_of_uint d].
Proof. induction d; simpl; try rewrite IHd; reflexivity. Qed.

Lemma split_str (z : Z) : Router.split_slash (str z) = [str z].
Proof.
  unfold str, NilZero.string_of_int, NilZero.string_of_uint.
  destruct (Z.to_int z) as [d|d]; destruct d; simpl;
    try rewrite split_digits; reflexivity.
Qed.

Lemma str_not_empty (z : Z) : String.eqb (str z) "" = false.
Proof.
  unfold str, NilZero.string_of_int, NilZero.string_of_uint.
  destruct (Z.to_int z) as [d|d]; destruct d; reflexivity.
Qed.

Lemma split_items_path (s : string) :
  Router.split_slash ("/items/" ++ s) = "" :: "items" :: Router.split_slash s.
Proof. reflexivity. Qed.

Lemma match_path_items (r : Router.route) (s : string) :
  Router.split_slash s = [s] ->
  Router.match_path r ("/items/" ++ s)
  = Router.match_pieces (Router.compile_path (Router.route_path r))
      [""; "items"; s].
Proof.
  intros H. unfold Router.match_path. rewrite split_items_path, H.
  reflexivity.
Qed.

(** C5.  [api_tutorial.py] registers no GET route for [/items/{item_id}]:
    the decorator of the second [list_items] repeats [/items/], and the
    code that reads one item stands after its [return].  A GET request
    for [/items/<id>] finds only the PUT and DELETE routes and is
    answered with 405.  In [test.py] the same request reaches
    [read_item], which answers with the id and with [q] as given. *)
Theorem api_tutorial_has_no_fetch_route (item_id : Z) :
  existsb
    (fun r =>
       Router.method_eqb (Router.route_method r) Router.GET
       && String.eqb (Router.route_path r) "/items/{item_id}")
    ApiTutorial.routes = false
  /\ Router.resolve ApiTutorial.routes Router.GET ("/items/" ++ str item_id)
     = Router.Method_Not_Allowed
  /\ Router.resolve TestPy.routes Router.GET ("/items/" ++ str item_id)
     = Router.Endpoint "read_item" [("item_id", str item_id)]
  /\ forall q,
      TestPy.read_item item_id q
      = Ok {| TestPy.ReadItem.item_id := item_id; TestPy.ReadItem.q := q |}.
Proof.
  pose proof (str_not_empty item_id) as Hne.
  pose proof (split_str item_id) as Hs.
  split; [reflexivity|].
  unfold Router.resolve, Router.path_known, ApiTutorial.routes,
    TestPy.routes.
  cbn [Router.first_full existsb].
  rewrite !(match_path_items _ Hs).
  destruct (str item_id) as [|c s]; [discriminate Hne|].
  repeat split.
Qed.

(** ** The stubs *)

(** In [test.py], [create_item], [update_item], [delete_item] and
    [create_user] give back, for every request, the success message
    together with the request as received. *)
Lemma test_py_handlers_echo
    (item : TestPy.Item.t) (item_id : Z) (user : TestPy.User.t) :
  TestPy.create_item item
  = Ok {| TestPy.CreateItem.item := item;
          TestPy.CreateItem.message := "Item created successfully" |}
  /\ TestPy.update_item item_id item
     = Ok {| TestPy.UpdateItem.item_id := item_id;
             TestPy.UpdateItem.item := item;
             TestPy.UpdateItem.message := "Item updated" |}
  /\ TestPy.delete_item item_id
     = Ok {| TestPy.DeleteItem.message :=
               "Item " ++ str item_id ++ " deleted" |}
  /\ TestPy.create_user user
     = Ok {| TestPy.CreateUser.user := user;
             TestPy.CreateUser.message := "User created" |}.
Proof. repeat split. Qed.

(** ** What the handlers do to the store *)

Lemma listed_rows file :
  listed file
  = map ApiTutorial.row_to_Item (Sqlite.rows (Sqlite.items file)).
Proof. unfold listed. rewrite list_items_all. reflexivity. Qed.

Lemma found_rows name price_min price_max file :
  found name price_min price_max file
  = if name_fits name
    then map ApiTutorial.row_to_Item
           (filter (keeps name price_min price_max)
              (Sqlite.rows (Sqlite.items file)))
    else [].
Proof.
  unfold found. destruct (name_fits name) eqn:Hfit.
  - rewrite (@search_items_filter name price_min price_max file Hfit).
    reflexivity.
  - destruct (Sqlite.rows (Sqlite.items file)) as [|r l] eqn:Hrows.
    + rewrite (@search_items_no_rows name price_min price_max file Hrows).
      reflexivity.
    + rewrite (@search_items_too_long name price_min price_max file Hfit);
        [reflexivity | rewrite Hrows; discriminate].
Qed.

Lemma search_items_store name price_min price_max file :
  fst (ApiTutorial.search_items name price_min price_max file) = file.
Proof.
  destruct (name_fits name) eqn:Hfit.
  - rewrite (@search_items_filter name price_min price_max file Hfit).
    reflexivity.
  - destruct (Sqlite.rows (Sqlite.items file)) as [|r l] eqn:Hrows.
    + rewrite (@search_items_no_rows name price_min price_max file Hrows).
      reflexivity.
    + rewrite (@search_items_too_long name price_min price_max file Hfit);
        [reflexivity | rewrite Hrows; discriminate].
Qed.

Lemma create_item_store item file :
  let item_id :=
    Sqlite.new_rowid (item_ids file) (Sqlite.seq (Sqlite.items file)) in
  ApiTutorial.create_item item file
  = ({| Sqlite.items :=
          {| Sqlite.rows :=
               Sqlite.rows (Sqlite.items file)
               ++ [ {| Sqlite.ir_id := item_id;
                       Sqlite.ir_name := ApiTutorial.Item.name item;
                       Sqlite.ir_price := ApiTutorial.Item.price item;
                       Sqlite.ir_is_offer :=
                         Sqlite.bind_bool (ApiTutorial.Item.is_offer item) |} ];
             Sqlite.seq := item_id |};
        Sqlite.users := Sqlite.users file |},
     Ok {| ApiTutorial.CreateItem.item := with_id (Some item_id) item;
           ApiTutorial.CreateItem.message := "Item created successfully" |}).
Proof. reflexivity. Qed.

Lemma ids_after_update name price is_offer id (l : list Sqlite.item_row) :
  map Sqlite.ir_id (map (Sqlite.update_item_row name price is_offer id) l)
  = map Sqlite.ir_id l.
Proof.
  induction l as [|r l IH]; simpl; [reflexivity|].
  rewrite IH. unfold Sqlite.update_item_row.
  destruct (Sqlite.ir_id r =? id); reflexivity.
Qed.

Lemma ids_after_delete id (l : list Sqlite.item_row) :
  map Sqlite.ir_id (filter (fun r => negb (has_id id r)) l)
  = filter (fun i => negb (i =? id)) (map Sqlite.ir_id l).
Proof.
  induction l as [|r l IH]; simpl; [reflexivity|].
  unfold has_id at 1. destruct (Sqlite.ir_id r =? id); simpl; congruence.
Qed.

Lemma NoDup_filter (A : Type) (f : A -> bool) (l : list A) :
  NoDup l -> NoDup (filter f l).
Proof.
  induction 1 as [|a l Ha Hl IH]; simpl; [constructor|].
  destruct (f a); [|exact IH].
  constructor; [|exact IH].
  intros H. apply filter_In in H. tauto.
Qed.

Lemma NoDup_snoc (A : Type) (l : list A) (a : A) :
  NoDup l -> ~ In a l -> NoDup (l ++ [a]).
Proof.
  intros Hl Ha. induction Hl as [|b l Hb Hl IH]; simpl.
  - constructor; [tauto | constructor].
  - constructor.
    + intros H. apply in_app_or in H as [H | [H | []]].
      * contradiction.
      * apply Ha. left. symmetry. exact H.
    + apply IH. intros H. apply Ha. right. exact H.
Qed.

(** ** Invariants *)

(** X1.  [create_item], [update_item] and [delete_item] keep the ids of
    [items] distinct and not above the table's counter. *)
Theorem item_handlers_keep_items_ok item_id item file :
  items_ok file ->
  items_ok (fst (ApiTutorial.create_item item file))
  /\ items_ok (fst (ApiTutorial.update_item item_id item file))
  /\ items_ok (fst (ApiTutorial.delete_item item_id file)).
Proof.
  unfold items_ok, table_ok. intros [Hnd Hle]. split; [|split].
  - rewrite create_item_store. simpl. rewrite map_app. simpl. split.
    + apply NoDup_snoc; [exact Hnd | apply new_rowid_fresh].
    + intros i Hi. apply in_app_or in Hi as [Hi | [<- | []]].
      * apply (new_rowid_above _ (Sqlite.seq (Sqlite.items file))) in Hi.
        unfold item_ids. lia.
      * lia.
  - destruct (storable_cases item_id) as [Hs | Hs];
      [|rewrite (@update_item_overflow item_id item file Hs);
        split; assumption].
    destruct (in_dec Z.eq_dec item_id (item_ids file)) as [Hin | Hout].
    + rewrite (@update_item_present item_id item file Hs Hin). simpl.
      rewrite ids_after_update. split; assumption.
    + rewrite (@update_item_absent item_id item file Hs Hout). simpl.
      split; assumption.
  - destruct (storable_cases item_id) as [Hs | Hs];
      [|rewrite (@delete_item_overflow item_id file Hs);
        split; assumption].
    destruct (in_dec Z.eq_dec item_id (item_ids file)) as [Hin | Hout].
    + rewrite (@delete_item_present item_id file Hs Hin). simpl.
      rewrite ids_after_delete. split.
      * apply NoDup_filter. exact Hnd.
      * intros i Hi. apply filter_In in Hi as [Hi _]. apply Hle. exact Hi.
    + rewrite (@delete_item_absent item_id file Hs Hout). simpl.
      split; assumption.
Qed.

Lemma sample_items_ok : items_ok sample_db.
Proof. split; [distinct | simpl; intros i H; distinct]. Qed.

Lemma item_handlers_keep_items_ok_witness :
  items_ok sample_db
  /\ items_ok (fst (ApiTutorial.create_item a_trackball sample_db))
  /\ items_ok (fst (ApiTutorial.update_item 2 a_trackball sample_db))
  /\ items_ok (fst (ApiTutorial.delete_item 2 sample_db)).
Proof.
  split; [exact sample_items_ok|].
  apply (@item_handlers_keep_items_ok 2 a_trackball sample_db).
  exact sample_items_ok.
Defined.

(** X2.  [create_user] keeps the ids, the usernames and the emails of
    [users] distinct, and the ids not above the table's counter. *)
Theorem create_user_keeps_users_ok user file :
  users_ok file -> users_ok (fst (ApiTutorial.create_user user file)).
Proof.
  intros Hok.
  destruct (existsb
              (fun r =>
                 String.eqb (Sqlite.ur_username r)
                   (ApiTutorial.User.username user)
                 || String.eqb (Sqlite.ur_email r)
                      (ApiTutorial.User.email user))
              (Sqlite.rows (Sqlite.users file))) eqn:E.
  - apply unique_check_true in E.
    rewrite (@create_user_taken user file E). exact Hok.
  - assert (Hfree : ~ taken user file).
    { intros T. apply unique_check_true in T. congruence. }
    rewrite (@create_user_free user file Hfree). simpl.
    destruct Hok as ([Hnd Hle] & Hname & Hmail).
    unfold users_ok, table_ok. simpl. rewrite !map_app. simpl.
    repeat split.
    + apply NoDup_snoc; [exact Hnd | apply new_rowid_fresh].
    + intros i Hi. apply in_app_or in Hi as [Hi | [<- | []]].
      * apply (new_rowid_above _ (Sqlite.seq (Sqlite.users file))) in Hi.
        unfold user_ids. lia.
      * lia.
    + apply NoDup_snoc; [exact Hname|].
      intros H. apply in_map_iff in H as (r & Hr & Hin).
      apply Hfree. exists r. tauto.
    + apply NoDup_snoc; [exact Hmail|].
      intros H. apply in_map_iff in H as (r & Hr & Hin).
      apply Hfree. exists r. tauto.
Qed.

Lemma sample_users_ok : users_ok sample_db.
Proof.
  repeat split; try distinct. simpl. intros i H. distinct.
Qed.

Lemma create_user_keeps_users_ok_witness :
  users_ok sample_db
  /\ users_ok (fst (ApiTutorial.create_user bob sample_db)).
Proof.
  split; [exact sample_users_ok|].
  apply (@create_user_keeps_users_ok bob sample_db).
  exact sample_users_ok.
Defined.

(** X3.  Started on a file whose tables, where they exist, have distinct
    ids below their counters and distinct usernames and emails, [init_db]
    succeeds and leaves a store with the same properties, whether it
    seeds a table or not. *)
Theorem init_db_establishes_invariants file :
  storage_ok file ->
  exists d,
    ApiTutorial.init_db file = Sqlite.Done d /\ items_ok d /\ users_ok d.
Proof.
  unfold storage_ok. intros [Hi Hu]. eexists.
  split; [apply init_db_seeded|].
  set (before := ApiTutorial.create_tables file) in *. clearbody before.
  split.
  - unfold items_ok in *. simpl. unfold seeded_items.
    destruct (Sqlite.rows (Sqlite.items before)) eqn:E; [|exact Hi].
    split; [distinct | simpl; intros i H; distinct].
  - unfold users_ok in *. simpl. unfold seeded_users.
    destruct (Sqlite.rows (Sqlite.users before)) eqn:E;
      [|rewrite E; exact Hu].
    repeat split; try distinct. simpl. intros i H. distinct.
Qed.

Lemma init_db_establishes_invariants_witness :
  storage_ok only_users
  /\ exists d,
      ApiTutorial.init_db only_users = Sqlite.Done d
      /\ items_ok d /\ users_ok d.
Proof.
  assert (H : storage_ok only_users).
  { split.
    - split; [distinct | simpl; intros i []].
    - repeat split; try distinct. simpl. intros i H. distinct. }
  split; [exact H|].
  apply (@init_db_establishes_invariants only_users H).
Defined.

(** ** Deleting and updating an item that exists *)

Lemma is_item_row id (r : Sqlite.item_row) :
  is_item id (ApiTutorial.row_to_Item r) = has_id id r.
Proof. reflexivity. Qed.

Lemma listed_after_delete id (l : list Sqlite.item_row) :
  map ApiTutorial.row_to_Item (filter (fun r => negb (has_id id r)) l)
  = filter (fun it => negb (is_item id it)) (map ApiTutorial.row_to_Item l).
Proof.
  induction l as [|r l IH]; simpl; [reflexivity|].
  rewrite is_item_row. destruct (has_id id r); simpl; congruence.
Qed.

Lemma id_gone (id : Z) (l : list Z) :
  ~ In id (filter (fun i => negb (i =? id)) l).
Proof.
  intros H. apply filter_In in H as [_ H].
  rewrite Z.eqb_refl in H. discriminate H.
Qed.

(** X4.  [delete_item] on an id that a row has (an id within the signed
    64-bit range, as every id is that the store has handed out) answers
    "Item <id> deleted"; afterwards the listing is the old listing
    without the items of that id, the other ids are present exactly as
    before, the status of the id is the 404 error, and a second
    [delete_item] of the id raises the 404 error and changes nothing. *)
Theorem delete_item_removes item_id file :
  Sqlite.storable item_id ->
  In item_id (item_ids file) ->
  let file' := fst (ApiTutorial.delete_item item_id file) in
  snd (ApiTutorial.delete_item item_id file)
  = Ok {| ApiTutorial.DeleteItem.message :=
            "Item " ++ str item_id ++ " deleted" |}
  /\ listed file'
     = filter (fun it => negb (is_item item_id it)) (listed file)
  /\ (forall j, j <> item_id ->
                In j (item_ids file') <-> In j (item_ids file))
  /\ snd (ApiTutorial.read_item_with_status item_id file') = not_found _
  /\ ApiTutorial.delete_item item_id file' = (file', not_found _).
Proof.
  intros Hs Hin file'. subst file'.
  rewrite (@delete_item_present item_id file Hs Hin). simpl.
  set (file' := {| Sqlite.items := _; Sqlite.users := _ |}).
  assert (Hids : item_ids file'
                 = filter (fun i => negb (i =? item_id)) (item_ids file))
    by apply ids_after_delete.
  assert (Hgone : ~ In item_id (item_ids file'))
    by (rewrite Hids; apply id_gone).
  split; [reflexivity|]. split; [|split; [|split]].
  - rewrite !listed_rows. apply listed_after_delete.
  - intros j Hj. rewrite Hids, filter_In.
    destruct (Z.eqb_spec j item_id); simpl; tauto.
  - rewrite (@status_absent item_id file' Hs Hgone). reflexivity.
  - apply delete_item_absent; assumption.
Qed.

Lemma delete_item_removes_witness :
  Sqlite.storable 2
  /\ In 2 (item_ids sample_db)
  /\ snd (ApiTutorial.delete_item 2 sample_db)
     = Ok {| ApiTutorial.DeleteItem.message := "Item 2 deleted" |}
  /\ snd (ApiTutorial.read_item_with_status 2
            (fst (ApiTutorial.delete_item 2 sample_db)))
     = not_found _.
Proof.
  assert (H : In 2 (item_ids sample_db)) by (right; left; reflexivity).
  split; [reflexivity|]. split; [exact H|].
  destruct (@delete_item_removes 2 sample_db eq_refl H)
    as (E & _ & _ & S & _).
  split; [exact E | exact S].
Defined.





(** ** The ids of created items *)




Lemma filter_keeps_all (A : Type) (f : A -> bool) (l : list A) :
  (forall a, In a l -> f a = true) -> filter f l = l.
Proof.
  induction l as [|a l IH]; intros H; simpl; [reflexivity|].
  rewrite (H a (or_introl eq_refl)), IH; [reflexivity|].
  intros b Hb. apply H. right. exact Hb.
Qed.






(** X9.  [create_item], [update_item] and [delete_item] never change the
    [users] table, [create_user] never changes the [items] table, and
    [list_items], [search_items] and [read_item_with_status] change
    nothing. *)
Theorem handlers_keep_to_their_table
    item_id item user name price_min price_max file :
  Sqlite.users (fst (ApiTutorial.create_item item file))
  = Sqlite.users file
  /\ Sqlite.users (fst (ApiTutorial.update_item item_id item file))
     = Sqlite.users file
  /\ Sqlite.users (fst (ApiTutorial.delete_item item_id file))
     = Sqlite.users file
  /\ Sqlite.items (fst (ApiTutorial.create_user user file))
     = Sqlite.items file
  /\ fst (ApiTutorial.list_items file) = file
  /\ fst (ApiTutorial.search_items name price_min price_max file) = file
  /\ fst (ApiTutorial.read_item_with_status item_id file) = file.
Proof.
  split; [reflexivity|]. split; [|split; [|split; [|split; [|split]]]].
  - destruct (storable_cases item_id) as [Hs | Hs];
      [|rewrite (@update_item_overflow item_id item file Hs); reflexivity].
    destruct (in_dec Z.eq_dec item_id (item_ids file)) as [Hin | Hout].
    + rewrite (@update_item_present item_id item file Hs Hin). reflexivity.
    + rewrite (@update_item_absent item_id item file Hs Hout). reflexivity.
  - destruct (storable_cases item_id) as [Hs | Hs];
      [|rewrite (@delete_item_overflow item_id file Hs); reflexivity].
    destruct (in_dec Z.eq_dec item_id (item_ids file)) as [Hin | Hout].
    + rewrite (@delete_item_present item_id file Hs Hin). reflexivity.
    + rewrite (@delete_item_absent item_id file Hs Hout). reflexivity.
  - unfold ApiTutorial.create_user, Sqlite.insert_user. simpl.
    destruct (existsb _ _); reflexivity.
  - rewrite list_items_all. reflexivity.
  - apply search_items_store.
  - destruct (storable_cases item_id) as [Hs | Hs];
      [|rewrite (@status_overflow item_id file Hs); reflexivity].
    destruct (in_dec Z.eq_dec item_id (item_ids file)) as [Hin | Hout].
    + rewrite (@status_present item_id file Hs Hin). reflexivity.
    + rewrite (@status_absent item_id file Hs Hout). reflexivity.
Qed.

(** X10.  The [id] field of a request body is never used: [create_item]
    and [create_user] do the same and answer the same whatever it holds,
    and so does [update_item] to the store. *)
Theorem body_id_is_ignored x item_id item user file :
  ApiTutorial.create_item (with_id x item) file
  = ApiTutorial.create_item item file
  /\ fst (ApiTutorial.update_item item_id (with_id x item) file)
     = fst (ApiTutorial.update_item item_id item file)
  /\ ApiTutorial.create_user (with_user_id x user) file
     = ApiTutorial.create_user user file.
Proof.
  split; [reflexivity|]. split; [|reflexivity].
  unfold ApiTutorial.update_item, Sqlite.update_items. simpl.
  destruct (Sqlite.bind_int item_id); [|reflexivity]. simpl.
  destruct (Z.of_nat _ =? 0); reflexivity.
Qed.

(** ** More on the search *)

Lemma filter_incl_map (A B : Type) (g : A -> B) (f f' : A -> bool)
    (l : list A) :
  (forall a, f' a = true -> f a = true) ->
  incl (map g (filter f' l)) (map g (filter f l)).
Proof.
  intros H b Hb. apply in_map_iff in Hb as (a & <- & Ha).
  apply filter_In in Ha as [Ha Hf]. apply in_map. apply filter_In.
  split; [exact Ha | apply H; exact Hf].
Qed.

Lemma filter_none (A : Type) (f : A -> bool) (l : list A) :
  (forall a, In a l -> f a = false) -> filter f l = [].
Proof.
  induction l as [|a l IH]; intros H; simpl; [reflexivity|].
  rewrite (H a (or_introl eq_refl)). apply IH.
  intros b Hb. apply H. right. exact Hb.
Qed.

(** X11.  Whatever the filters, every item that [search_items] returns
    is an item that [list_items] returns, there are no more of them, and
    with no filter the two answers hold the same items. *)
Theorem search_is_part_of_listing name price_min price_max file :
  incl (found name price_min price_max file) (listed file)
  /\ (List.length (found name price_min price_max file)
      <= List.length (listed file))%nat
  /\ found None None None file = listed file.
Proof.
  rewrite !found_rows, listed_rows. split; [|split].
  - destruct (name_fits name); [|intros it []].
    intros it Hit. apply in_map_iff in Hit as (r & <- & Hr).
    apply filter_In in Hr as [Hr _]. apply in_map. exact Hr.
  - destruct (name_fits name); rewrite ?length_map; simpl;
      [apply filter_length_le | lia].
  - simpl. rewrite filter_keeps_none. reflexivity.
Qed.

(** X12.  When [price_max] is below [price_min], [search_items] returns
    no item (and no error), whatever the name filter whose pattern the
    store's [LIKE] accepts. *)
Theorem search_empty_range name lo hi file :
  name_fits name = true ->
  (hi < lo)%Q ->
  exists body,
    snd (ApiTutorial.search_items name (Some lo) (Some hi) file) = Ok body
    /\ ApiTutorial.Search.items body = []
    /\ ApiTutorial.Search.count body = 0.
Proof.
  intros Hfit Hlt.
  rewrite (@search_items_filter name (Some lo) (Some hi) file Hfit).
  eexists. split; [reflexivity|]. simpl.
  rewrite filter_none; [split; reflexivity|].
  intros r _. unfold keeps.
  destruct (Qle_bool lo (Sqlite.ir_price r)) eqn:E1;
    [|rewrite andb_false_r; reflexivity].
  destruct (Qle_bool (Sqlite.ir_price r) hi) eqn:E2;
    [|rewrite andb_false_r; reflexivity].
  apply Qle_bool_iff in E1, E2. exfalso.
  apply (Qlt_not_le _ _ Hlt). apply (Qle_trans _ _ _ E1 E2).
Qed.

Lemma search_empty_range_witness :
  name_fits (Some "o") = true
  /\ (100 < 200)%Q
  /\ exists body,
      snd (ApiTutorial.search_items (Some "o") (Some 200%Q) (Some 100%Q)
             sample_db) = Ok body
      /\ ApiTutorial.Search.items body = []
      /\ ApiTutorial.Search.count body = 0.
Proof.
  split; [reflexivity|]. split; [reflexivity|].
  apply (@search_empty_range (Some "o") 200%Q 100%Q sample_db);
    reflexivity.
Defined.

(** X13.  An empty [name] is no filter: [search_items] returns the same
    items for [name=""] as for no [name], whatever the price bounds. *)
Theorem search_empty_name_is_no_filter price_min price_max file :
  found (Some "") price_min price_max file
  = found None price_min price_max file.
Proof.
  rewrite !found_rows. reflexivity.
Qed.

(** X14.  Raising [price_min] or lowering [price_max] only removes items
    from the answer of [search_items]. *)
Theorem search_narrows_with_bounds name lo lo' hi hi' file :
  (lo <= lo')%Q -> (hi' <= hi)%Q ->
  incl (found name (Some lo') (Some hi') file)
       (found name (Some lo) (Some hi) file).
Proof.
  intros Hlo Hhi. rewrite !found_rows.
  destruct (name_fits name); [|intros it []]. apply filter_incl_map.
  intros r. unfold keeps. rewrite !andb_true_iff, !Qle_bool_iff.
  intros [[Hn H1] H2]. repeat split.
  - exact Hn.
  - apply (Qle_trans _ _ _ Hlo H1).
  - apply (Qle_trans _ _ _ H2 Hhi).
Qed.

Lemma search_narrows_with_bounds_witness :
  (50 <= 100)%Q /\ (200 <= 300)%Q
  /\ incl (found None (Some 100%Q) (Some 200%Q) sample_db)
          (found None (Some 50%Q) (Some 300%Q) sample_db).
Proof.
  assert (H1 : (50 <= 100)%Q) by (intros H; discriminate H).
  assert (H2 : (200 <= 300)%Q) by (intros H; discriminate H).
  split; [exact H1|]. split; [exact H2|].
  apply (@search_narrows_with_bounds None 50%Q 100%Q 300%Q 200%Q
           sample_db H1 H2).
Defined.

Lemma all_percent_cons (c : ascii) (s : string) :
  all_percent (String c s) = true ->
  c = "%"%char /\ (s = "" \/ all_percent s = true).
Proof.
  simpl. destruct s as [|d s].
  - intros H. apply Ascii.eqb_eq in H. auto.
  - intros H. apply andb_prop in H as [H1 H2].
    apply Ascii.eqb_eq in H1. auto.
Qed.

Lemma like_all_percent (p s : string) :
  all_percent p = true -> Sqlite.like p s = true.
Proof.
  revert s. induction p as [|c p IH]; intros s H; [discriminate H|].
  apply all_percent_cons in H as [-> [-> | H]].
  - apply like_percent.
  - rewrite like_percent_cons.
    destruct s; simpl; rewrite (IH _ H); reflexivity.
Qed.

Lemma all_percent_append (p : string) :
  all_percent p = true -> all_percent (p ++ "%") = true.
Proof.
  induction p as [|c p IH]; intros H; [discriminate H|].
  apply all_percent_cons in H as [-> [-> | H]]; [reflexivity|].
  specialize (IH H). simpl.
  destruct (p ++ "%") eqn:E; [destruct p; discriminate E | exact IH].
Qed.

Lemma all_percent_nul_free (p : string) :
  all_percent p = true -> nul_free p = true.
Proof.
  induction p as [|c p IH]; intros H; [reflexivity|].
  apply all_percent_cons in H as [-> [-> | H]]; [reflexivity|].
  simpl. apply IH. exact H.
Qed.

(** X15.  The name filter is handed to the pattern match as it is: for a
    [name] made of [%] characters only, and short enough for the store's
    [LIKE] to accept the pattern, [search_items] returns every item of
    the table. *)
Theorem search_percent_matches_all f file :
  all_percent f = true ->
  name_fits (Some f) = true ->
  found (Some f) None None file = listed file.
Proof.
  intros H Hfit. rewrite found_rows, listed_rows, Hfit. f_equal.
  apply filter_keeps_all. intros r _. unfold keeps.
  assert (L : Sqlite.like (Sqlite.c_string ("%" ++ f ++ "%"))
                (Sqlite.c_string (Sqlite.ir_name r)) = true).
  { rewrite (c_string_nul_free _
               (nul_free_pattern _ (all_percent_nul_free _ H))).
    apply like_all_percent. apply all_percent_append in H.
    simpl. destruct (f ++ "%") eqn:E; [destruct f; discriminate E|].
    exact H. }
  rewrite L. destruct (truthy (Some f)); reflexivity.
Qed.

Lemma search_percent_matches_all_witness :
  all_percent "%" = true
  /\ name_fits (Some "%") = true
  /\ found (Some "%") None None sample_db = listed sample_db.
Proof.
  split; [reflexivity|]. split; [reflexivity|].
  apply (@search_percent_matches_all "%" sample_db); reflexivity.
Defined.


(** ** Where requests go *)

Lemma first_full_cut routes m path :
  Router.first_full routes m path
  = first_full_pieces routes m (Router.split_slash path).
Proof.
  induction routes as [|r routes IH]; simpl; [reflexivity|].
  rewrite IH. reflexivity.
Qed.

Lemma resolve_found routes m path r :
  first_full_pieces routes m (Router.split_slash path) = Some r ->
  Router.resolve routes m path = r.
Proof.
  intros H. unfold Router.resolve. rewrite first_full_cut, H. reflexivity.
Qed.

Lemma resolve_other_method routes m path :
  first_full_pieces routes m (Router.split_slash path) = None ->
  known_pieces routes (Router.split_slash path) = true ->
  Router.resolve routes m path = Router.Method_Not_Allowed.
Proof.
  intros H K. unfold Router.resolve. rewrite first_full_cut, H.
  unfold known_pieces in K. unfold Router.path_known, Router.match_path.
  rewrite K. reflexivity.
Qed.

Lemma split_before_slash (a b : string) :
  Router.split_slash a = [a] ->
  Router.split_slash (a ++ String "/" b) = a :: Router.split_slash b.
Proof.
  induction a as [|c a IH]; simpl; [reflexivity|].
  destruct (Router.is_slash c); [discriminate|].
  destruct (Router.split_slash a) as [|piece l] eqn:E.
  - intros [= Ha]. subst a. discriminate E.
  - intros [= -> ->]. rewrite (IH eq_refl). reflexivity.
Qed.

Lemma split_item_path (p : string) :
  Router.split_slash p = [p] ->
  Router.split_slash ("/items/" ++ p) = [""; "items"; p].
Proof. intros H. rewrite split_items_path, H. reflexivity. Qed.

Lemma split_status_path (p : string) :
  Router.split_slash p = [p] ->
  Router.split_slash (("/items/" ++ p) ++ "/status")
  = [""; "items"; p; "status"].
Proof.
  intros H. rewrite append_assoc3, split_items_path.
  rewrite (@split_before_slash p "status" H). reflexivity.
Qed.

(** X16.  In both scripts and for every integer id, a PUT of
    [/items/<id>] goes to [update_item] and a DELETE to [delete_item],
    a GET of [/items/<id>/status] goes to [read_item_with_status], each
    with the id's text as [item_id]; a POST of [/items/<id>] is answered
    with 405. *)
Theorem item_routes_dispatch (item_id : Z) :
  let path := "/items/" ++ str item_id in
  let params := [("item_id", str item_id)] in
  forall routes, routes = ApiTutorial.routes \/ routes = TestPy.routes ->
    Router.resolve routes Router.PUT path
    = Router.Endpoint "update_item" params
    /\ Router.resolve routes Router.DELETE path
       = Router.Endpoint "delete_item" params
    /\ Router.resolve routes Router.GET (path ++ "/status")
       = Router.Endpoint "read_item_with_status" params
    /\ Router.resolve routes Router.POST path = Router.Method_Not_Allowed.
Proof.
  intros path params routes Hroutes. subst path params.
  pose proof (str_not_empty item_id) as Hne.
  pose proof (split_str item_id) as Hs.
  pose proof (split_item_path Hs) as Hitem.
  pose proof (split_status_path Hs) as Hstatus.
  clear Hs. revert Hne Hitem Hstatus.
  generalize (str item_id) as p. intros p Hne Hitem Hstatus.
  destruct p as [|c s]; [discriminate Hne|].
  destruct Hroutes as [-> | ->]; repeat split;
    first [ apply resolve_found; rewrite ?Hitem, ?Hstatus; reflexivity
          | apply resolve_other_method; rewrite Hitem; reflexivity ].
Qed.

Lemma item_routes_dispatch_witness :
  Router.resolve ApiTutorial.routes Router.PUT ("/items/" ++ str 7)
  = Router.Endpoint "update_item" [("item_id", str 7)]
  /\ Router.resolve TestPy.routes Router.GET
       (("/items/" ++ str 7) ++ "/status")
     = Router.Endpoint "read_item_with_status" [("item_id", str 7)].
Proof.
  destruct (@item_routes_dispatch 7 ApiTutorial.routes (or_introl eq_refl))
    as (Hput & _).
  destruct (@item_routes_dispatch 7 TestPy.routes (or_intror eq_refl))
    as (_ & _ & Hget & _).
  split; [exact Hput | exact Hget].
Defined.

(** ** Starting again on an emptied table *)

(** X17.  When [items] has no rows at start-up, every sample row that
    [init_db] inserts has an id above the table's counter, so above every
    id the table handed out before; the same holds for [users]. *)
Theorem init_db_reseeds_above_counter file :
  let before := ApiTutorial.create_tables file in
  exists d,
    ApiTutorial.init_db file = Sqlite.Done d
    /\ (Sqlite.rows (Sqlite.items before) = [] ->
        List.length (item_ids d) = 5%nat
        /\ forall i, In i (item_ids d) ->
                     Sqlite.seq (Sqlite.items before) < i)
    /\ (Sqlite.rows (Sqlite.users before) = [] ->
        List.length (user_ids d) = 3%nat
        /\ forall i, In i (user_ids d) ->
                     Sqlite.seq (Sqlite.users before) < i).
Proof.
  intros before. eexists. split; [apply init_db_seeded|].
  fold before. clearbody before. unfold item_ids, user_ids. simpl.
  split; intros E.
  - unfold seeded_items. rewrite E. unfold first_rowid. simpl.
    split; [reflexivity|]. intros i H.
    repeat (destruct H as [H | H]; [lia|]). destruct H.
  - unfold seeded_users. rewrite E. unfold first_rowid. simpl.
    split; [reflexivity|]. intros i H.
    repeat (destruct H as [H | H]; [lia|]). destruct H.
Qed.

Lemma init_db_reseeds_above_counter_witness :
  exists d,
    ApiTutorial.init_db emptied = Sqlite.Done d
    /\ List.length (item_ids d) = 5%nat
    /\ forall i, In i (item_ids d) -> 8 < i.
Proof.
  destruct (init_db_reseeds_above_counter emptied) as (d & E & Hi & _).
  exists d. split; [exact E|]. apply Hi. reflexivity.
Defined.

(** ** Deleting removes one item *)

Lemma length_without_id id (l : list Sqlite.item_row) :
  NoDup (map Sqlite.ir_id l) ->
  In id (map Sqlite.ir_id l) ->
  (List.length (filter (fun r => negb (has_id id r)) l) + 1
   = List.length l)%nat.
Proof.
  induction l as [|a l IH]; simpl; [contradiction|].
  intros Hnd Hin. inversion Hnd as [|x xs Ha Hl]; subst.
  unfold has_id at 1. destruct (Z.eqb_spec (Sqlite.ir_id a) id) as [E|E].
  - simpl. rewrite filter_keeps_all; [lia|].
    intros r Hr. unfold has_id.
    destruct (Z.eqb_spec (Sqlite.ir_id r) id) as [E'|E']; [|reflexivity].
    exfalso. apply Ha. rewrite E, <- E'. apply in_map. exact Hr.
  - simpl. destruct Hin as [Hin | Hin]; [contradiction|].
    rewrite <- (IH Hl Hin). lia.
Qed.

(** X18.  On a store whose item ids are distinct, [delete_item] on an id
    that a row has (an id within the signed 64-bit range, as every id is
    that the store has handed out) lowers the count that [list_items]
    reports by exactly one. *)
Theorem delete_item_lowers_count_by_one item_id file :
  items_ok file ->
  Sqlite.storable item_id ->
  In item_id (item_ids file) ->
  exists before after,
    snd (ApiTutorial.list_items file) = Ok before
    /\ snd (ApiTutorial.list_items
              (fst (ApiTutorial.delete_item item_id file))) = Ok after
    /\ ApiTutorial.ListItems.count after
       = ApiTutorial.ListItems.count before - 1.
Proof.
  intros [Hnd _] Hs Hin.
  rewrite (@delete_item_present item_id file Hs Hin), !list_items_all.
  eexists. eexists. split; [reflexivity|]. split; [reflexivity|].
  simpl.
  pose proof (@length_without_id item_id
                (Sqlite.rows (Sqlite.items file)) Hnd Hin).
  lia.
Qed.

Lemma delete_item_lowers_count_by_one_witness :
  items_ok sample_db
  /\ Sqlite.storable 3
  /\ In 3 (item_ids sample_db)
  /\ exists before after,
      snd (ApiTutorial.list_items sample_db) = Ok before
      /\ snd (ApiTutorial.list_items
                (fst (ApiTutorial.delete_item 3 sample_db))) = Ok after
      /\ ApiTutorial.ListItems.count after
         = ApiTutorial.ListItems.count before - 1.
Proof.
  assert (H : In 3 (item_ids sample_db)).
  { right. right. left. reflexivity. }
  split; [exact sample_items_ok|]. split; [reflexivity|].
  split; [exact H|].
  apply (@delete_item_lowers_count_by_one 3 sample_db sample_items_ok
           eq_refl H).
Defined.
